(** * AgentGram SDK: the shared request pipeline

    A shallow embedding of [HttpClient] (http.ts) and of the error classes
    (errors.ts), together with the part of the JavaScript host that the
    pipeline touches: JSON values as [response.json()] hands them over,
    property reads, the [in] operator, truthiness, [String(..)], the [URL]
    object with its [searchParams], and [fetch].

    The host is not part of the repository.  Its pure, specified parts
    (truthiness, property reads on parsed JSON, [URLSearchParams.set], the
    urlencoded serializer) are written out; its open parts (URL parsing, the
    transport behind [fetch], [JSON.stringify]) are fields of a [Runtime]
    record that every operation of the client receives. *)

From Stdlib Require Import ZArith String List Ascii Bool Lia DecimalString.
Import ListNotations.
Open Scope string_scope.
Open Scope Z_scope.

(** ** JavaScript values *)

Module JS.

(** A number.  The pipeline does no arithmetic on numbers: it tests them for
    truthiness and prints them.  A finite number other than zero is given
    the way step 5 of [Number::toString] takes it: its sign, the digits
    [d1 ... dk] of the shortest decimal that reads back as the number, and
    the exponent [n], the number being [0.d1...dk] times ten to the [n]. *)
Inductive number : Type :=
| NaN
| Infinity (negative : bool)
| Zero (negative : bool)
| Finite (negative : bool) (digits : Decimal.uint) (n : Z).

Fixpoint zeros (m : nat) : string :=
  match m with
  | O => ""
  | S m' => String "0" (zeros m')
  end.

(** Steps 5 to 9 of [Number::toString] for radix 10, on the digits and the
    exponent of a positive finite number: plain notation for an exponent
    from -5 to 21, with the decimal point where it falls, and exponent
    notation otherwise. *)
Definition digits_toString (digits : Decimal.uint) (n : Z) : string :=
  let s := NilEmpty.string_of_uint digits in
  let k := Z.of_nat (String.length s) in
  if (-6 <? n) && (n <=? 21) then
    if k <=? n then s ++ zeros (Z.to_nat (n - k))
    else if 0 <? n then
      substring 0 (Z.to_nat n) s ++ "."
      ++ substring (Z.to_nat n) (Z.to_nat (k - n)) s
    else "0." ++ zeros (Z.to_nat (- n)) ++ s
  else
    let e := n - 1 in
    let exponent :=
      "e" ++ (if e <? 0 then "-" else "+")
      ++ NilZero.string_of_uint (N.to_uint (Z.abs_N e)) in
    match s with
    | String c EmptyString => String c "" ++ exponent
    | String c rest => String c "" ++ "." ++ rest ++ exponent
    | EmptyString => exponent
    end.

(** [Number::toString(x)], as [String(x)] and a template literal apply it. *)
Definition ToString_number (x : number) : string :=
  match x with
  | NaN => "NaN"
  | Infinity negative => if negative then "-Infinity" else "Infinity"
  | Zero _ => "0"
  | Finite negative digits n =>
      (if negative then "-" else "") ++ digits_toString digits n
  end.

(** The zeros at the low end of a numeral whose low digit comes first. *)
Fixpoint strip_low_zeros (d : Decimal.uint) : Decimal.uint :=
  match d with
  | Decimal.D0 d' => strip_low_zeros d'
  | _ => d
  end.

(** The number that holds the integer [z], for an integer a number holds
    exactly with all its digits, as each one up to 2^53 in magnitude is:
    the digits without the zeros at the end, and as exponent the count of
    all digits. *)
Definition integer (z : Z) : number :=
  match z with
  | Z0 => Zero false
  | Zpos p =>
      Finite false (Decimal.rev (strip_low_zeros (Pos.to_little_uint p)))
        (Z.of_nat (Decimal.nb_digits (Pos.to_uint p)))
  | Zneg p =>
      Finite true (Decimal.rev (strip_low_zeros (Pos.to_little_uint p)))
        (Z.of_nat (Decimal.nb_digits (Pos.to_uint p)))
  end.

(** A value produced by [JSON.parse].  An object is the list of its own
    properties, in property order. *)
#[local] Set Warnings "-register-all".
Inductive JSON : Type :=
| JNull
| JBool (b : bool)
| JNum (n : number)
| JStr (s : string)
| JArr (items : list JSON)
| JObj (props : list (string * JSON)).

(** What an expression of the client can evaluate to: [undefined], or a
    value that came out of a JSON body (or a literal of the same shape). *)
Inductive value : Type :=
| VUndefined
| VJson (j : JSON).

Definition VStr (s : string) : value := VJson (JStr s).

(** The [TypeError]s the host raises on the pipeline's behalf. *)
Inductive type_error : Type :=
| InvalidURL                         (* new URL(s) on an unparsable s *)
| ReadOfNullish (prop : string)      (* null.p, undefined.p *)
| InOnPrimitive (prop : string)      (* 'p' in 5 *)
| NotPrimitive.                      (* String(o) with no usable toString *)

(** [Number::toString] on the number that holds the integer [n].  The
    pipeline prints one integer, the status of a response, which the host
    keeps from 0 to 999. *)
Definition Number_toString (n : Z) : string :=
  ToString_number (integer n).

Definition Boolean_toString (b : bool) : string :=
  if b then "true" else "false".

(** [ToBoolean]. *)
Definition truthy (v : value) : bool :=
  match v with
  | VUndefined => false
  | VJson JNull => false
  | VJson (JBool b) => b
  | VJson (JNum (Zero _)) => false
  | VJson (JNum NaN) => false
  | VJson (JNum _) => true
  | VJson (JStr s) => negb (s =? "")%string
  | VJson (JArr _) => true
  | VJson (JObj _) => true
  end.

(** Own property of a parsed object. *)
Fixpoint lookup (k : string) (props : list (string * JSON)) : option JSON :=
  match props with
  | [] => None
  | (k', j) :: rest => if (k =? k')%string then Some j else lookup k rest
  end.

(** [v.k] for the property names the pipeline reads ([success], [error],
    [data], [message], [code]).  None of them is defined on the prototypes of
    objects, arrays, strings, numbers or booleans, so only an own property of
    an object yields a value; reading from [null] or [undefined] throws. *)
Definition read (v : value) (k : string) : value + type_error :=
  match v with
  | VUndefined => inr (ReadOfNullish k)
  | VJson JNull => inr (ReadOfNullish k)
  | VJson (JObj props) =>
      match lookup k props with
      | Some j => inl (VJson j)
      | None => inl VUndefined
      end
  | VJson _ => inl VUndefined
  end.

(** ['k' in v], again for the names above: an own property of an object;
    never a member of an array (they are not indices); a [TypeError] on
    anything that is not an object. *)
Definition has_property (k : string) (v : value) : bool + type_error :=
  match v with
  | VJson (JObj props) =>
      inl (match lookup k props with Some _ => true | None => false end)
  | VJson (JArr _) => inl false
  | _ => inr (InOnPrimitive k)
  end.

(** [ToString] on a parsed JSON value.  An array prints as its elements
    joined by commas, [null] elements as the empty string.  A plain object
    prints as [[object Object]] unless it carries an own [toString] property:
    that property cannot be callable, [valueOf] then returns the object
    itself, and the conversion throws. *)
Fixpoint ToString (j : JSON) : string + type_error :=
  match j with
  | JNull => inl "null"
  | JBool b => inl (Boolean_toString b)
  | JNum n => inl (ToString_number n)
  | JStr s => inl s
  | JArr items =>
      let fix join (xs : list JSON) : string + type_error :=
        match xs with
        | [] => inl ""
        | x :: rest =>
            match (match x with JNull => inl "" | _ => ToString x end) with
            | inr e => inr e
            | inl s =>
                match rest with
                | [] => inl s
                | _ :: _ =>
                    match join rest with
                    | inr e => inr e
                    | inl t => inl (s ++ "," ++ t)
                    end
                end
            end
        end
      in join items
  | JObj props =>
      match lookup "toString" props with
      | Some _ => inr NotPrimitive
      | None => inl "[object Object]"
      end
  end.

End JS.
Export JS.

(** ** errors.ts *)

Module Errors.

(** The classes of errors.ts; [instanceof] distinguishes them. *)
Inductive ErrorClass : Type :=
| AgentGramErrorClass
| AuthenticationErrorClass
| RateLimitErrorClass
| NotFoundErrorClass
| ValidationErrorClass
| ServerErrorClass.

(** An instance of [AgentGramError] or of one of its subclasses. *)
Record AgentGramError : Type := mkAgentGramError {
  class : ErrorClass;
  name : string;
  message : string;
  statusCode : option Z;
  code : value
}.

(** What the pipeline can throw: an SDK error, or a [TypeError] of the host. *)
Inductive exn : Type :=
| SdkError (e : AgentGramError)
| TypeError (t : type_error).

(** [super(message)] of the built-in [Error]: an [undefined] message leaves
    the inherited empty message, any other value is converted to a string. *)
Definition Error_message (message : value) : string + type_error :=
  match message with
  | VUndefined => inl ""
  | VJson j => ToString j
  end.

(** A default parameter [message = d] takes [d] exactly when the argument is
    [undefined]. *)
Definition default_param (message : value) (d : string) : value :=
  match message with
  | VUndefined => VStr d
  | VJson _ => message
  end.

(** [new AgentGramError(message, statusCode, code)], as the base class and as
    the [super(..)] call of a subclass, which then overwrites [name]. *)
Definition construct (cls : ErrorClass) (nm : string)
    (message : value) (statusCode : option Z) (code : value) : exn :=
  match Error_message message with
  | inl m => SdkError (mkAgentGramError cls nm m statusCode code)
  | inr t => TypeError t
  end.

Definition new_AgentGramError (message : value) (statusCode : option Z)
    (code : value) : exn :=
  construct AgentGramErrorClass "AgentGramError" message statusCode code.

Definition new_AuthenticationError (message : value) : exn :=
  construct AuthenticationErrorClass "AuthenticationError"
    (default_param message "Authentication failed")
    (Some 401) (VStr "AUTHENTICATION_ERROR").

Definition new_RateLimitError (message : value) : exn :=
  construct RateLimitErrorClass "RateLimitError"
    (default_param message "Rate limit exceeded")
    (Some 429) (VStr "RATE_LIMIT_ERROR").

Definition new_NotFoundError (message : value) : exn :=
  construct NotFoundErrorClass "NotFoundError"
    (default_param message "Resource not found")
    (Some 404) (VStr "NOT_FOUND_ERROR").

Definition new_ValidationError (message : value) : exn :=
  construct ValidationErrorClass "ValidationError"
    (default_param message "Validation failed")
    (Some 400) (VStr "VALIDATION_ERROR").

Definition new_ServerError (message : value) : exn :=
  construct ServerErrorClass "ServerError"
    (default_param message "Internal server error")
    (Some 500) (VStr "SERVER_ERROR").

End Errors.
Export Errors.

(** ** The URL object of the host *)

Module Url.

(** A parsed URL: the serialization of everything before the query (scheme,
    authority, path), the query and the fragment if any, and the list behind
    [url.searchParams], which the parser fills from the query. *)
Record URL : Type := mkURL {
  url_base : string;
  url_query : option string;
  url_fragment : option string;
  searchParams : list (string * string)
}.

(** Bytes the application/x-www-form-urlencoded serializer leaves alone:
    ASCII letters and digits and [* - . _].  A string stands for the UTF-8
    bytes of the JavaScript string. *)
Definition urlencoded_safe (c : ascii) : bool :=
  let n := N_of_ascii c in
  ((48 <=? n) && (n <=? 57) || (65 <=? n) && (n <=? 90)
   || (97 <=? n) && (n <=? 122)
   || (n =? 42) || (n =? 45) || (n =? 46) || (n =? 95))%N.

Definition hex_digit (n : N) : ascii :=
  ascii_of_N (if (n <? 10)%N then 48 + n else 55 + n)%N.

Definition percent_encode (c : ascii) : string :=
  let n := N_of_ascii c in
  String "%" (String (hex_digit (n / 16)) (String (hex_digit (n mod 16)) "")).

Fixpoint urlencode (s : string) : string :=
  match s with
  | EmptyString => EmptyString
  | String c rest =>
      (if (c =? " ")%char then "+"
       else if urlencoded_safe c then String c ""
       else percent_encode c) ++ urlencode rest
  end.

(** The urlencoded serializer: [name=value] pairs joined by [&]. *)
Fixpoint urlencoded_serialize (l : list (string * string)) : string :=
  match l with
  | [] => ""
  | (n, v) :: rest =>
      urlencode n ++ "=" ++ urlencode v ++
      match rest with
      | [] => ""
      | _ :: _ => "&" ++ urlencoded_serialize rest
      end
  end.

Definition remove_name (k : string) (l : list (string * string)) :=
  filter (fun p => negb (fst p =? k)%string) l.

(** The list change of [URLSearchParams.set]: the first tuple named [k]
    takes the value and the others go; without such a tuple one is appended. *)
Fixpoint set_tuple (k v : string) (l : list (string * string)) :=
  match l with
  | [] => [(k, v)]
  | (k', v') :: rest =>
      if (k' =? k)%string then (k', v) :: remove_name k rest
      else (k', v') :: set_tuple k v rest
  end.

(** [url.searchParams.set(k, v)], with the update of the URL's query: the
    serialized list, or no query when that is empty. *)
Definition searchParams_set (u : URL) (k v : string) : URL :=
  let l := set_tuple k v (searchParams u) in
  let q := urlencoded_serialize l in
  mkURL (url_base u) (if (q =? "")%string then None else Some q)
        (url_fragment u) l.

(** The tuples with name [k]. *)
Definition named (k : string) : string * string -> bool :=
  fun p => (fst p =? k)%string.

Definition searchParams_getAll (u : URL) (k : string) : list string :=
  map snd (filter (named k) (searchParams u)).

Definition searchParams_has (u : URL) (k : string) : bool :=
  existsb (named k) (searchParams u).

(** [url.toString()], the href. *)
Definition URL_toString (u : URL) : string :=
  url_base u ++
  match url_query u with None => "" | Some q => "?" ++ q end ++
  match url_fragment u with None => "" | Some f => "#" ++ f end.

End Url.
Export Url.

(** ** fetch and the rest of the host *)

Module Host.

(** The options object the pipeline hands to [fetch]; [init_signal] is the
    signal of a controller that a timer aborts after that many
    milliseconds. *)
Record RequestInit : Type := mkRequestInit {
  init_method : string;
  init_headers : list (string * string);
  init_body : option string;
  init_signal : number
}.

(** What the pipeline uses of a [Response]: its status, and [json()], which
    resolves with the parsed body or rejects when the body is not JSON. *)
Record Response : Type := mkResponse {
  status : Z;
  json : option JSON
}.

(** [response.ok]: the status is in the range 200 to 299. *)
Definition ok (r : Response) : bool :=
  (200 <=? status r) && (status r <=? 299).

(** A value [fetch] rejects with.  A [DOMException] is an [Error] too; an
    aborted signal rejects with the [DOMException] named [AbortError]; a
    network failure with a [TypeError], an [ErrorInstance]. *)
Inductive rejection : Type :=
| DOMException (name message : string)
| ErrorInstance (name message : string)
| NotAnError.

Inductive settled : Type :=
| Fulfilled (r : Response)
| Rejected (e : rejection).

Record Runtime : Type := mkRuntime {
  URL_parse : string -> option URL;
  JSON_stringify : JSON -> string;
  fetch : string -> RequestInit -> settled
}.

(** What the host sees the pipeline do, in order. *)
Inductive event : Type :=
| SetTimeout (ms : number)
| Fetch (url : string) (init : RequestInit)
| ClearTimeout
| ReadJson.

End Host.
Export Host.

(** ** Computations that log host events and may throw *)

Module Run.

Inductive completion (A : Type) : Type :=
| Return (a : A)
| Throw (e : exn).
Arguments Return {A} a.
Arguments Throw {A} e.

Definition M (A : Type) : Type := (list event * completion A)%type.

Definition ret {A} (a : A) : M A := ([], Return a).
Definition throw {A} (e : exn) : M A := ([], Throw e).
Definition emit (ev : event) : M unit := ([ev], Return tt).

Definition bind {A B} (m : M A) (f : A -> M B) : M B :=
  match m with
  | (t, Return a) => let (t', r) := f a in ((t ++ t')%list, r)
  | (t, Throw e) => (t, Throw e)
  end.

(** The result of a host operation that can raise a [TypeError]. *)
Definition lift {A} (r : A + type_error) : M A :=
  match r with
  | inl a => ret a
  | inr t => throw (TypeError t)
  end.

Definition events {A} (m : M A) : list event := fst m.
Definition outcome {A} (m : M A) : completion A := snd m.

End Run.
Export Run.

Notation "x <- m ;; k" := (bind m (fun x => k))
  (at level 61, m at next level, right associativity).
Notation "m ;; k" := (bind m (fun _ => k))
  (at level 61, right associativity).

(** ** http.ts *)

Module Http.

Record HttpClientConfig : Type := mkHttpClientConfig {
  config_baseUrl : string;
  config_apiKey : string;
  config_timeout : number
}.

Record HttpClient : Type := mkHttpClient {
  baseUrl : string;
  apiKey : string;
  timeout : number
}.

(** [s.replace(/\/+$/, '')]: the run of slashes that ends the string goes. *)
Fixpoint strip_trailing_slashes (s : string) : string :=
  match s with
  | EmptyString => EmptyString
  | String c rest =>
      let rest' := strip_trailing_slashes rest in
      if ((c =? "/")%char && (rest' =? "")%string)%bool then EmptyString
      else String c rest'
  end.

Definition new_HttpClient (config : HttpClientConfig) : HttpClient :=
  mkHttpClient (strip_trailing_slashes (config_baseUrl config))
               (config_apiKey config) (config_timeout config).

(** A query parameter value that is not [undefined]. *)
Inductive param : Type :=
| PString (s : string)
| PNumber (n : number)
| PBoolean (b : bool).

(** [String(value)]. *)
Definition String_of (p : param) : string :=
  match p with
  | PString s => s
  | PNumber n => ToString_number n
  | PBoolean b => Boolean_toString b
  end.

(** [Object.entries(params)] of a
    [Record<string, string | number | boolean | undefined>]: the own
    properties in property order, [None] for a property holding
    [undefined]. *)
Definition Params : Type := list (string * option param).

(** The loop of [buildUrl] over the entries. *)
Fixpoint set_params (url : URL) (entries : Params) : URL :=
  match entries with
  | [] => url
  | (key, Some value) :: rest =>
      set_params (searchParams_set url key (String_of value)) rest
  | (key, None) :: rest => set_params url rest
  end.

(** The URL object of [buildUrl] when it reaches [url.toString()]. *)
Definition buildUrl_object (rt : Runtime) (this : HttpClient) (path : string)
    (params : option Params) : URL + type_error :=
  match URL_parse rt (baseUrl this ++ path) with
  | None => inr InvalidURL
  | Some url =>
      inl (match params with
           | Some entries => set_params url entries
           | None => url
           end)
  end.

Definition buildUrl (rt : Runtime) (this : HttpClient) (path : string)
    (params : option Params) : string + type_error :=
  match buildUrl_object rt this path params with
  | inl url => inl (URL_toString url)
  | inr t => inr t
  end.

(** [throwMappedError] never returns: its result is what it throws. *)
Definition throwMappedError (status : Z) (message : value) (code : value)
    : exn :=
  if status =? 400 then new_ValidationError message
  else if status =? 401 then new_AuthenticationError message
  else if status =? 404 then new_NotFoundError message
  else if status =? 429 then new_RateLimitError message
  else if 500 <=? status then new_ServerError message
  else new_AgentGramError message (Some status) code.

Definition headers_of (this : HttpClient) : list (string * string) :=
  [("Content-Type", "application/json");
   ("Accept", "application/json");
   ("Authorization", "Bearer " ++ apiKey this)].

(** The second argument of the [fetch] call, for a body that is a JSON
    value, which [JSON.stringify] accepts:
    [body ? JSON.stringify(body) : undefined] tests the body for
    truthiness. *)
Definition request_init (rt : Runtime) (this : HttpClient) (method : string)
    (body : option JSON) : RequestInit :=
  mkRequestInit method (headers_of this)
    (match body with
     | Some b =>
         if truthy (VJson b) then Some (JSON_stringify rt b) else None
     | None => None
     end)
    (timeout this).

(** [error instanceof DOMException && error.name === 'AbortError'] *)
Definition is_abort (error : rejection) : bool :=
  match error with
  | DOMException name _ => (name =? "AbortError")%string
  | _ => false
  end.

(** [error instanceof Error ? error.message : 'Network request failed'] *)
Definition network_message (error : rejection) : string :=
  match error with
  | DOMException _ message => message
  | ErrorInstance _ message => message
  | NotAnError => "Network request failed"
  end.

(** [!json.success && 'error' in json] *)
Definition error_in (json : value) : M bool :=
  success <- lift (read json "success") ;;
  if negb (truthy success) then lift (has_property "error" json)
  else ret false.

(** [request] up to the end of its [try]/[catch]/[finally]: the URL, the
    timer, the transport call, and the errors of a rejected call. *)
Definition request_transport (rt : Runtime) (this : HttpClient)
    (method path : string) (body : option JSON) (params : option Params)
    : M Response :=
  url <- lift (buildUrl rt this path params) ;;
  emit (SetTimeout (timeout this)) ;;
  let init := request_init rt this method body in
  emit (Fetch url init) ;;
  match fetch rt url init with
  | Rejected error =>
      emit ClearTimeout ;;
      if is_abort error then
        throw (new_AgentGramError
                 (VStr ("Request timed out after "
                        ++ ToString_number (timeout this) ++ "ms"))
                 None (VStr "TIMEOUT_ERROR"))
      else
        throw (new_AgentGramError (VStr (network_message error))
                 None (VStr "NETWORK_ERROR"))
  | Fulfilled response => emit ClearTimeout ;; ret response
  end.

(** [request] on a body outside [JSON]: an object that [JSON.stringify]
    refuses (a [BigInt] member, a cycle) by throwing [error].  The object
    is truthy, the throw happens inside the [try] while the argument of
    [fetch] is built, and the [catch] and the [finally] deal with it as
    with a rejection of [fetch]; the transport is not reached. *)
Definition request_refused (rt : Runtime) (this : HttpClient)
    (path : string) (params : option Params) (error : rejection)
    : M value :=
  url <- lift (buildUrl rt this path params) ;;
  emit (SetTimeout (timeout this)) ;;
  emit ClearTimeout ;;
  if is_abort error then
    throw (new_AgentGramError
             (VStr ("Request timed out after "
                    ++ ToString_number (timeout this) ++ "ms"))
             None (VStr "TIMEOUT_ERROR"))
  else
    throw (new_AgentGramError (VStr (network_message error))
             None (VStr "NETWORK_ERROR")).

(** The rest of [request], from the test for 204 on. *)
Definition request_response (response : Response) : M value :=
  if status response =? 204 then ret VUndefined
  else
    json <-
      (emit ReadJson ;;
       match json response with
       | Some j => ret (VJson j)
       | None =>
           throw (new_AgentGramError
                    (VStr ("Invalid JSON response (HTTP "
                           ++ Number_toString (status response) ++ ")"))
                    (Some (status response)) (VStr "PARSE_ERROR"))
       end) ;;
    failed <-
      (if negb (ok response) then ret true
       else success <- lift (read json "success") ;;
            ret (negb (truthy success))) ;;
    (if failed : bool then
       has_message <- error_in json ;;
       errorMessage <-
         (if has_message : bool then
            error <- lift (read json "error") ;; lift (read error "message")
          else ret (VStr ("HTTP " ++ Number_toString (status response)))) ;;
       has_code <- error_in json ;;
       errorCode <-
         (if has_code : bool then
            error <- lift (read json "error") ;; lift (read error "code")
          else ret VUndefined) ;;
       throw (throwMappedError (status response) errorMessage errorCode)
     else ret tt) ;;
    lift (read json "data").

Definition request (rt : Runtime) (this : HttpClient) (method path : string)
    (body : option JSON) (params : option Params) : M value :=
  response <- request_transport rt this method path body params ;;
  request_response response.

Definition get (rt : Runtime) (this : HttpClient) (path : string)
    (params : option Params) : M value :=
  request rt this "GET" path None params.

Definition post (rt : Runtime) (this : HttpClient) (path : string)
    (body : option JSON) : M value :=
  request rt this "POST" path body None.

Definition patch (rt : Runtime) (this : HttpClient) (path : string)
    (body : option JSON) : M value :=
  request rt this "PATCH" path body None.

Definition delete (rt : Runtime) (this : HttpClient) (path : string)
    : M value :=
  request rt this "DELETE" path None None.

End Http.
Export Http.

(** ** client.ts and the resources *)

(** The resource classes hold nothing but the [HttpClient] they were built
    with; a method is modelled as a function of that client.  Left out are
    the methods whose body is a spread [{ ...params }] of a typed object
    ([create], [register], [scan], [simulate], [generateLlmsTxt]): a member
    of such an object may hold [undefined], which [JSON] has no value for. *)

Module Resources.

(** Characters [encodeURIComponent] keeps: ASCII letters and digits and
    [- _ . ! ~ * ' ( )]. *)
Definition uri_unreserved (c : ascii) : bool :=
  let n := N_of_ascii c in
  ((48 <=? n) && (n <=? 57) || (65 <=? n) && (n <=? 90)
   || (97 <=? n) && (n <=? 122)
   || (n =? 45) || (n =? 95) || (n =? 46) || (n =? 33) || (n =? 126)
   || (n =? 42) || (n =? 39) || (n =? 40) || (n =? 41))%N.

(** [encodeURIComponent(s)] on the UTF-8 bytes of a well-formed string:
    every byte outside the unreserved set becomes [%XX]. *)
Fixpoint encodeURIComponent (s : string) : string :=
  match s with
  | EmptyString => EmptyString
  | String c rest =>
      (if uri_unreserved c then String c "" else percent_encode c)
      ++ encodeURIComponent rest
  end.

(** [x !== undefined ? { key: x } : undefined] *)
Definition only (key : string) (x : option param) : option Params :=
  match x with
  | Some v => Some [(key, Some v)]
  | None => None
  end.

(** [const body = { ...fixed }; if (x !== undefined) { body.key = x; }] *)
Definition with_optional (fixed : list (string * JSON)) (key : string)
    (x : option JSON) : JSON :=
  JObj (match x with
        | Some v => fixed ++ [(key, v)]
        | None => fixed
        end)%list.

(** [await call;] in a method that returns nothing. *)
Definition discard (call : M value) : M value :=
  call ;; ret VUndefined.

Module PostsResource.
Definition get (rt : Runtime) (http : HttpClient) (postId : string)
    : M value :=
  Http.get rt http ("/posts/" ++ postId) None.
Definition like (rt : Runtime) (http : HttpClient) (postId : string)
    : M value :=
  post rt http ("/posts/" ++ postId ++ "/like") None.
Definition repost (rt : Runtime) (http : HttpClient) (postId : string)
    (comment : option string) : M value :=
  post rt http ("/posts/" ++ postId ++ "/repost")
    (Some (with_optional [] "comment" (option_map JStr comment))).
Definition comments (rt : Runtime) (http : HttpClient) (postId : string)
    : M value :=
  Http.get rt http ("/posts/" ++ postId ++ "/comments") None.
Definition comment (rt : Runtime) (http : HttpClient)
    (postId content : string) (parentId : option string) : M value :=
  post rt http ("/posts/" ++ postId ++ "/comments")
    (Some (with_optional [("content", JStr content)] "parentId"
             (option_map JStr parentId))).
Definition list (rt : Runtime) (http : HttpClient) (params : option Params)
    : M value :=
  Http.get rt http "/posts" params.
End PostsResource.

Module HashtagsResource.
Definition trending (rt : Runtime) (http : HttpClient)
    (limit : option number)
    : M value :=
  get rt http "/hashtags/trending" (only "limit" (option_map PNumber limit)).
Definition posts (rt : Runtime) (http : HttpClient) (tag : string)
    (params : option Params) : M value :=
  get rt http ("/hashtags/" ++ encodeURIComponent tag ++ "/posts") params.
End HashtagsResource.

Module NotificationsResource.
Definition markRead (rt : Runtime) (http : HttpClient)
    (ids : option (list string)) : M value :=
  discard (post rt http "/notifications/read"
             (Some (with_optional [] "ids"
                      (option_map (fun l => JArr (map JStr l)) ids)))).
Definition markAllRead (rt : Runtime) (http : HttpClient) : M value :=
  discard (post rt http "/notifications/read-all" None).
Definition list (rt : Runtime) (http : HttpClient) (unread : option bool)
    : M value :=
  get rt http "/notifications" (only "unread" (option_map PBoolean unread)).
End NotificationsResource.

Module StoriesResource.
Definition create (rt : Runtime) (http : HttpClient) (content : string)
    : M value :=
  post rt http "/stories" (Some (JObj [("content", JStr content)])).
Definition view (rt : Runtime) (http : HttpClient) (storyId : string)
    : M value :=
  discard (post rt http ("/stories/" ++ storyId ++ "/view") None).
Definition list (rt : Runtime) (http : HttpClient) (limit : option number)
    : M value :=
  get rt http "/stories" (only "limit" (option_map PNumber limit)).
End StoriesResource.

Module AgentsResource.
Definition me (rt : Runtime) (http : HttpClient) : M value :=
  Http.get rt http "/agents/me" None.
Definition status (rt : Runtime) (http : HttpClient) : M value :=
  Http.get rt http "/agents/status" None.
Definition get (rt : Runtime) (http : HttpClient) (agentId : string)
    : M value :=
  Http.get rt http ("/agents/" ++ agentId) None.
Definition follow (rt : Runtime) (http : HttpClient) (agentId : string)
    : M value :=
  post rt http ("/agents/" ++ agentId ++ "/follow") None.
Definition followers (rt : Runtime) (http : HttpClient) (agentId : string)
    : M value :=
  Http.get rt http ("/agents/" ++ agentId ++ "/followers") None.
Definition following (rt : Runtime) (http : HttpClient) (agentId : string)
    : M value :=
  Http.get rt http ("/agents/" ++ agentId ++ "/following") None.
Definition list (rt : Runtime) (http : HttpClient) (params : option Params)
    : M value :=
  Http.get rt http "/agents" params.
End AgentsResource.

Module AXReportsResource.
Definition get (rt : Runtime) (http : HttpClient) (id : string) : M value :=
  Http.get rt http ("/ax-score/reports/" ++ id) None.
Definition list (rt : Runtime) (http : HttpClient) (params : option Params)
    : M value :=
  Http.get rt http "/ax-score/reports" params.
End AXReportsResource.

(** client.ts *)

Record AgentGramOptions : Type := mkAgentGramOptions {
  options_apiKey : string;
  options_baseUrl : option string;
  options_timeout : option number
}.

Definition DEFAULT_BASE_URL : string := "https://agentgram.co/api/v1".
Definition DEFAULT_TIMEOUT : number := integer 30000.

(** [a ?? b] on an optional member. *)
Definition nullish {A} (a : option A) (b : A) : A :=
  match a with
  | Some x => x
  | None => b
  end.

(** The [http] of [new AgentGram(options)], which all its resources share. *)
Definition new_AgentGram (options : AgentGramOptions) : HttpClient :=
  new_HttpClient
    (mkHttpClientConfig (nullish (options_baseUrl options) DEFAULT_BASE_URL)
       (options_apiKey options)
       (nullish (options_timeout options) DEFAULT_TIMEOUT)).

Definition health (rt : Runtime) (http : HttpClient) : M value :=
  get rt http "/health" None.

Definition me (rt : Runtime) (http : HttpClient) : M value :=
  AgentsResource.me rt http.

End Resources.
Export Resources.

(** ** The vocabulary of the specification *)

Module Spec.

(** The kinds of the specification's Error Record. *)
Inductive ErrorKind : Type :=
| Authentication | Validation | NotFound | RateLimit | Server
| Timeout | Network | Parse | Generic.

(** The kind of an SDK error: its subclass, and for an instance of the base
    class the code the pipeline stamps on timeouts, network failures and
    undecodable bodies. *)
Definition kind (e : AgentGramError) : ErrorKind :=
  match class e with
  | AuthenticationErrorClass => Authentication
  | ValidationErrorClass => Validation
  | NotFoundErrorClass => NotFound
  | RateLimitErrorClass => RateLimit
  | ServerErrorClass => Server
  | AgentGramErrorClass =>
      match code e with
      | VJson (JStr c) =>
          if (c =? "TIMEOUT_ERROR")%string then Timeout
          else if (c =? "NETWORK_ERROR")%string then Network
          else if (c =? "PARSE_ERROR")%string then Parse
          else Generic
      | _ => Generic
      end
  end.

(** The status to kind table of section 4.1. *)
Definition table_kind (status : Z) : ErrorKind :=
  if status =? 400 then Validation
  else if status =? 401 then Authentication
  else if status =? 404 then NotFound
  else if status =? 429 then RateLimit
  else if 500 <=? status then Server
  else Generic.

(** The code each named class fixes for its instances. *)
Definition class_code (k : ErrorKind) : option string :=
  match k with
  | Authentication => Some "AUTHENTICATION_ERROR"
  | Validation => Some "VALIDATION_ERROR"
  | NotFound => Some "NOT_FOUND_ERROR"
  | RateLimit => Some "RATE_LIMIT_ERROR"
  | Server => Some "SERVER_ERROR"
  | _ => None
  end.

(** A failure envelope [{success: false, error: {code, message}}]: its code
    and message. *)
Definition failure_envelope (j : JSON) : option (string * string) :=
  match j with
  | JObj props =>
      match lookup "success" props, lookup "error" props with
      | Some (JBool false), Some (JObj error) =>
          match lookup "code" error, lookup "message" error with
          | Some (JStr c), Some (JStr m) => Some (c, m)
          | _, _ => None
          end
      | _, _ => None
      end
  | _ => None
  end.

(** A success envelope [{success: true, data, meta?}]: its data. *)
Definition success_envelope (j : JSON) : option JSON :=
  match j with
  | JObj props =>
      match lookup "success" props, lookup "data" props with
      | Some (JBool true), Some d => Some d
      | _, _ => None
      end
  | _ => None
  end.

(** [needle] occurs in [hay]. *)
Definition contains (needle hay : string) : Prop :=
  exists pre post, hay = pre ++ needle ++ post.

(** The code an error carries after [throwMappedError]: the fixed code of
    its class for a status of the table, the given one otherwise. *)
Definition mapped_code (status : Z) (given : value) : value :=
  match class_code (table_kind status) with
  | Some fixed => VStr fixed
  | None => given
  end.

(** The query of a URL is the serialization of its [searchParams]. *)
Definition in_step (u : URL) : Prop :=
  url_query u = Some (urlencoded_serialize (searchParams u)).

(** What the host sees of a call that reaches the transport. *)
Definition transport_events (rt : Runtime) (this : HttpClient)
    (method : string) (body : option JSON) (url : string) : list event :=
  [SetTimeout (timeout this);
   Fetch url (request_init rt this method body);
   ClearTimeout].

End Spec.
Export Spec.

(** ** Vocabulary of the further properties *)

Module Shape.

(** Every character of [s] is a slash. *)
Fixpoint all_slashes (s : string) : bool :=
  match s with
  | EmptyString => true
  | String c rest => (c =? "/")%char && all_slashes rest
  end.

(** The last character of [s] is a slash. *)
Fixpoint ends_with_slash (s : string) : bool :=
  match s with
  | EmptyString => false
  | String c EmptyString => (c =? "/")%char
  | String _ rest => ends_with_slash rest
  end.

(** Every character of [s] satisfies [p]. *)
Fixpoint every (p : ascii -> bool) (s : string) : bool :=
  match s with
  | EmptyString => true
  | String c rest => p c && every p rest
  end.

(** The parameters that hold a value, as the tuples [buildUrl] sets. *)
Fixpoint present (entries : Params) : list (string * string) :=
  match entries with
  | [] => []
  | (key, Some value) :: rest => (key, String_of value) :: present rest
  | (_, None) :: rest => present rest
  end.

(** The message a named error class falls back to, and the empty inherited
    message of the base class. *)
Definition default_message (k : ErrorKind) : string :=
  match k with
  | Authentication => "Authentication failed"
  | Validation => "Validation failed"
  | NotFound => "Resource not found"
  | RateLimit => "Rate limit exceeded"
  | Server => "Internal server error"
  | _ => ""
  end.

(** How often the character [c] occurs in [s]. *)
Fixpoint count (c : ascii) (s : string) : nat :=
  match s with
  | EmptyString => O
  | String x rest => ((if (x =? c)%char then 1 else 0) + count c rest)%nat
  end.

(** A number that prints with a plus sign: one from 1e21 on. *)
Definition exponent_plus (x : number) : bool :=
  match x with
  | Finite _ _ n => 21 <? n
  | _ => false
  end.

(** A value whose [String(value)] the urlencoded serializer leaves as it
    is: a boolean, a number that prints without a plus sign, a string of
    characters the serializer keeps. *)
Definition literal (value : param) : bool :=
  match value with
  | PString s => every urlencoded_safe s
  | PNumber x => negb (exponent_plus x)
  | PBoolean _ => true
  end.

(** A parsed URL without query, fragment or parameters. *)
Definition plain (u : URL) : Prop :=
  url_query u = None /\ url_fragment u = None /\ searchParams u = [].


(** A decoded body that is neither an object nor an array. *)
Definition primitive (j : JSON) : bool :=
  match j with
  | JObj _ | JArr _ => false
  | _ => true
  end.

(** The member [k] of an object is missing or falsy. *)
Definition falsy_member (k : string) (props : list (string * JSON)) : Prop :=
  match lookup k props with
  | Some s => truthy (VJson s) = false
  | None => True
  end.

(** A status the table of section 4.1 does not name. *)
Definition unlisted (status : Z) : Prop :=
  status <> 400 /\ status <> 401 /\ status <> 404 /\ status <> 429
  /\ status < 500.

(** A computation the host sees nothing of. *)
Definition quiet {A} (m : M A) : Prop := events m = [].

(** The transport call of a request, as the host sees it. *)
Definition transport_call (rt : Runtime) (this : HttpClient)
    (method : string) (body : option JSON) (url : string) : event :=
  Fetch url
    (mkRequestInit method
       [("Content-Type", "application/json");
        ("Accept", "application/json");
        ("Authorization", "Bearer " ++ apiKey this)]
       (match body with
        | Some b =>
            if truthy (VJson b) then Some (JSON_stringify rt b) else None
        | None => None
        end)
       (timeout this)).

End Shape.
Export Shape.

(** ** A mock host *)

Module Mock.

(** Parses an absolute URL without query or fragment that is already in
    normal form, as the URLs of the runs below are. *)
Definition mock_URL_parse (s : string) : option URL :=
  Some (mkURL s None None []).

(** A transport that settles every call the same way.  No run below sends a
    body, so the serializer is a stand-in. *)
Definition mock_runtime (result : settled) : Runtime :=
  mkRuntime mock_URL_parse (fun _ => "{}") (fun _ _ => result).

Definition client : HttpClient :=
  new_HttpClient
    (mkHttpClientConfig "https://agentgram.co/api/v1/" "key"
       (integer 30000)).

Definition envelope_not_found : JSON :=
  JObj [("success", JBool false);
        ("error", JObj [("code", JStr "NOT_FOUND");
                        ("message", JStr "no such agent")])].

Definition envelope_post : JSON :=
  JObj [("success", JBool true);
        ("data", JObj [("id", JStr "p1")]);
        ("meta", JObj [("page", JNum (integer 1));
                       ("limit", JNum (integer 10));
                       ("total", JNum (integer 1))])].

(** The mock transport answering with a status and a body that decodes. *)
Definition answering (status : Z) (body : JSON) : Runtime :=
  mock_runtime (Fulfilled (mkResponse status (Some body))).

(** The mock transport answering with a status and a body that is not
    JSON. *)
Definition garbling (status : Z) : Runtime :=
  mock_runtime (Fulfilled (mkResponse status None)).

(** The mock transport of a call that the timer aborts, and of one that
    cannot connect. *)
Definition aborting : Runtime :=
  mock_runtime (Rejected (DOMException "AbortError"
                            "This operation was aborted")).

Definition unreachable : Runtime :=
  mock_runtime (Rejected (ErrorInstance "TypeError" "fetch failed")).

(** A host for which nothing parses as a URL. *)
Definition unparsing : Runtime :=
  mkRuntime (fun _ => None) (fun _ => "{}")
    (fun _ _ => Rejected NotAnError).

Definition envelope_created : JSON :=
  JObj [("success", JBool true); ("data", JObj [("id", JStr "abc")])].


Definition error_without_message : JSON :=
  JObj [("error", JStr "boom")].

Definition hostile_query : Params :=
  [("q", Some (PString "a&b=c#d?e")); ("page", None);
   ("limit", Some (PNumber (integer 0)))].

Definition list_query : Params :=
  [("limit", Some (PNumber (integer 0))); ("page", None);
   ("unread", Some (PBoolean false)); ("sort", Some (PString "hot"))].

End Mock.
Export Mock.

(** ** The two ways the transport call settles *)

Section Transport.

Variables (rt : Runtime) (this : HttpClient).
Variables (method path : string) (body : option JSON).
Variables (params : option Params) (url : string).

Hypothesis built : buildUrl rt this path params = inl url.

Lemma request_fulfilled (r : Response) :
  fetch rt url (request_init rt this method body) = Fulfilled r ->
  request rt this method path body params =
    ((transport_events rt this method body url
        ++ events (request_response r))%list,
     outcome (request_response r)).
Proof.
  intros settled. unfold request, request_transport.
  rewrite built. cbn [lift bind ret emit app]. rewrite settled.
  cbn [bind ret emit app]. destruct (request_response r) as [t c].
  reflexivity.
Qed.

Lemma request_rejected (error : rejection) :
  fetch rt url (request_init rt this method body) = Rejected error ->
  request rt this method path body params =
    (transport_events rt this method body url,
     Throw (if is_abort error then
              new_AgentGramError
                (VStr ("Request timed out after "
                       ++ ToString_number (timeout this) ++ "ms"))
                None (VStr "TIMEOUT_ERROR")
            else
              new_AgentGramError (VStr (network_message error))
                None (VStr "NETWORK_ERROR"))).
Proof.
  intros settled. unfold request, request_transport.
  rewrite built. cbn [lift bind ret emit app]. rewrite settled.
  destruct (is_abort error); reflexivity.
Qed.

End Transport.

(** ** The response phase on envelopes *)

Lemma failure_envelope_inv (j : JSON) (c m : string) :
  failure_envelope j = Some (c, m) ->
  exists props error,
    j = JObj props /\
    lookup "success" props = Some (JBool false) /\
    lookup "error" props = Some (JObj error) /\
    lookup "code" error = Some (JStr c) /\
    lookup "message" error = Some (JStr m).
Proof.
  destruct j as [| | | | |props]; try discriminate. cbn [failure_envelope].
  destruct (lookup "success" props) as [[|[|]| | | |]|] eqn:Hs; try discriminate.
  destruct (lookup "error" props) as [[| | | | |error]|] eqn:He; try discriminate.
  destruct (lookup "code" error) as [[| | |c'| |]|] eqn:Hc; try discriminate.
  destruct (lookup "message" error) as [[| | |m'| |]|] eqn:Hm; try discriminate.
  intros [= <- <-]. exists props, error. auto.
Qed.

Lemma success_envelope_inv (j d : JSON) :
  success_envelope j = Some d ->
  exists props,
    j = JObj props /\
    lookup "success" props = Some (JBool true) /\
    lookup "data" props = Some d.
Proof.
  destruct j as [| | | | |props]; try discriminate. cbn [success_envelope].
  destruct (lookup "success" props) as [[|[|]| | | |]|] eqn:Hs; try discriminate.
  destruct (lookup "data" props) as [d'|] eqn:Hd; try discriminate.
  intros [= <-]. exists props. auto.
Qed.

Section Response.

Variable r : Response.
Hypothesis content : status r <> 204.

Lemma response_not_204 : (status r =? 204) = false.
Proof. apply Z.eqb_neq, content. Qed.

(** A failure envelope goes to [throwMappedError] with its own message and
    code, whatever the status. *)
Lemma response_failure (j : JSON) (c m : string) :
  json r = Some j ->
  failure_envelope j = Some (c, m) ->
  request_response r =
    ([ReadJson], Throw (throwMappedError (status r) (VStr m) (VStr c))).
Proof.
  intros decoded envelope.
  destruct (failure_envelope_inv _ _ _ envelope)
    as (props & error & -> & Hs & He & Hc & Hm).
  unfold request_response. rewrite response_not_204, decoded.
  cbn [bind emit ret app].
  unfold error_in, read, has_property. rewrite Hs, He. cbn.
  rewrite Hc, Hm. destruct (ok r); reflexivity.
Qed.

(** A body that is an object with a truthy [success] or without an [error]
    member, on a status outside 200..299, goes there with [HTTP <status>]
    and no code. *)
Lemma response_not_ok (props : list (string * JSON)) :
  json r = Some (JObj props) ->
  ok r = false ->
  (exists s, lookup "success" props = Some s /\ truthy (VJson s) = true)
  \/ lookup "error" props = None ->
  request_response r =
    ([ReadJson],
     Throw (throwMappedError (status r)
              (VStr ("HTTP " ++ Number_toString (status r))) VUndefined)).
Proof.
  intros decoded failing shape.
  unfold request_response. rewrite response_not_204, decoded, failing.
  cbn [bind emit ret app negb].
  unfold error_in, read, has_property.
  destruct shape as [(s & Hs & Ht) | He].
  - rewrite Hs. cbn [lift bind ret app]. rewrite Ht. reflexivity.
  - rewrite He. destruct (lookup "success" props) as [s|];
      cbn [lift bind ret app]; [destruct (truthy (VJson s))|]; reflexivity.
Qed.

(** A body without an [error] member whose [success] is not truthy either,
    an array or an object, goes there with [HTTP <status>] and no code on
    every status. *)
Lemma response_unmarked (j : JSON) :
  json r = Some j ->
  (exists items, j = JArr items)
  \/ (exists props,
        j = JObj props
        /\ falsy_member "success" props /\ lookup "error" props = None) ->
  request_response r =
    ([ReadJson],
     Throw (throwMappedError (status r)
              (VStr ("HTTP " ++ Number_toString (status r))) VUndefined)).
Proof.
  intros decoded shape.
  unfold request_response. rewrite response_not_204, decoded.
  cbn [bind emit ret app].
  unfold error_in, read, has_property, lift.
  destruct shape as [(items & ->) | (props & -> & falsy & missing)].
  - destruct (ok r); reflexivity.
  - unfold falsy_member in falsy. revert falsy. rewrite missing.
    destruct (lookup "success" props) as [s|];
      [intros falsy|intros _]; destruct (ok r);
      cbn [bind ret throw emit app negb]; rewrite ?falsy; reflexivity.
Qed.

(** A success envelope on a status in 200..299 is unwrapped. *)
Lemma response_success (j d : JSON) :
  json r = Some j ->
  ok r = true ->
  success_envelope j = Some d ->
  request_response r = ([ReadJson], Return (VJson d)).
Proof.
  intros decoded fine envelope.
  destruct (success_envelope_inv _ _ envelope) as (props & -> & Hs & Hd).
  unfold request_response. rewrite response_not_204, decoded, fine.
  cbn [bind emit ret app negb].
  unfold read. rewrite Hs, Hd. reflexivity.
Qed.

(** A body that does not decode. *)
Lemma response_undecodable :
  json r = None ->
  request_response r =
    ([ReadJson],
     Throw (SdkError
              (mkAgentGramError AgentGramErrorClass "AgentGramError"
                 ("Invalid JSON response (HTTP "
                  ++ Number_toString (status r) ++ ")")
                 (Some (status r)) (VStr "PARSE_ERROR")))).
Proof.
  intros undecoded. unfold request_response.
  rewrite response_not_204, undecoded. reflexivity.
Qed.

End Response.

Lemma ok_iff (r : Response) : ok r = true <-> 200 <= status r <= 299.
Proof. unfold ok. rewrite andb_true_iff, !Z.leb_le. tauto. Qed.

(** ** [throwMappedError] by status *)

Lemma throwMappedError_other (status : Z) (message code : value) :
  status <> 400 -> status <> 401 -> status <> 404 -> status <> 429 ->
  status < 500 ->
  throwMappedError status message code
  = new_AgentGramError message (Some status) code.
Proof.
  intros n400 n401 n404 n429 below. unfold throwMappedError.
  rewrite (proj2 (Z.eqb_neq _ _) n400), (proj2 (Z.eqb_neq _ _) n401),
    (proj2 (Z.eqb_neq _ _) n404), (proj2 (Z.eqb_neq _ _) n429),
    (proj2 (Z.leb_gt _ _) below).
  reflexivity.
Qed.

Lemma throwMappedError_server (status : Z) (message code : value) :
  500 <= status ->
  throwMappedError status message code = new_ServerError message.
Proof.
  intros above. unfold throwMappedError.
  rewrite (proj2 (Z.eqb_neq status 400)), (proj2 (Z.eqb_neq status 401)),
    (proj2 (Z.eqb_neq status 404)), (proj2 (Z.eqb_neq status 429)),
    (proj2 (Z.leb_le 500 status)) by lia.
  reflexivity.
Qed.

(** ** Responses *)

Section Fulfilled.

Variables (rt : Runtime) (this : HttpClient).
Variables (method path : string) (body : option JSON).
Variables (params : option Params) (url : string) (r : Response).

Hypothesis built : buildUrl rt this path params = inl url.
Hypothesis settled :
  fetch rt url (request_init rt this method body) = Fulfilled r.

(** C4.  A response with status 204 makes [request] return [undefined],
    whatever its body is, decodable or not, and [response.json()] is never
    called: the host sees the timer, the transport call and the disarming of
    the timer, and nothing else. *)
Theorem C4_no_content :
  status r = 204 ->
  request rt this method path body params
  = (transport_events rt this method body url, Return VUndefined)
  /\ ~ In ReadJson (events (request rt this method path body params)).
Proof.
  intros no_content.
  assert (run : request rt this method path body params
                = (transport_events rt this method body url,
                   Return VUndefined)).
  { rewrite (request_fulfilled _ _ _ _ _ _ _ built _ settled).
    unfold request_response. rewrite no_content. reflexivity. }
  split; [exact run|]. rewrite run. cbn.
  intros [H|[H|[H|[]]]]; discriminate H.
Qed.

(** C5.  A response with a status other than 204, so each one in 200..299
    but 204, whose body does not parse as JSON makes [request] throw a
    base-class error with code [PARSE_ERROR], of kind Parse and so neither
    Generic nor Server, whose [statusCode] is the status of the response. *)
Theorem C5_parse_error :
  status r <> 204 ->
  json r = None ->
  exists e,
    outcome (request rt this method path body params) = Throw (SdkError e)
    /\ class e = AgentGramErrorClass
    /\ code e = VStr "PARSE_ERROR"
    /\ kind e = Parse /\ kind e <> Generic /\ kind e <> Server
    /\ statusCode e = Some (status r).
Proof.
  intros content undecoded.
  rewrite (request_fulfilled _ _ _ _ _ _ _ built _ settled).
  rewrite (response_undecodable _ content undecoded).
  eexists. split; [reflexivity|]. cbn. repeat split; discriminate.
Qed.

(** C8.  A response with a status in 200..299 other than 204 that carries a
    success envelope makes [request] return the envelope's [data], and
    nothing but it. *)
Theorem C8_success_unwrapped (j d : JSON) :
  200 <= status r <= 299 ->
  status r <> 204 ->
  json r = Some j ->
  success_envelope j = Some d ->
  outcome (request rt this method path body params) = Return (VJson d).
Proof.
  intros fine content decoded envelope.
  rewrite (request_fulfilled _ _ _ _ _ _ _ built _ settled).
  rewrite (response_success _ content _ _ decoded
             (proj2 (ok_iff r) fine) envelope).
  reflexivity.
Qed.

(** C9.  A response with a status in 200..299 other than 204 whose body is a
    failure envelope makes [request] throw an instance of the base class
    itself, with the status as [statusCode], the envelope's message as
    message and the envelope's code as code. *)
Theorem C9_failure_on_success_status (j : JSON) (c m : string) :
  200 <= status r <= 299 ->
  status r <> 204 ->
  json r = Some j ->
  failure_envelope j = Some (c, m) ->
  outcome (request rt this method path body params)
  = Throw (SdkError (mkAgentGramError AgentGramErrorClass "AgentGramError"
                       m (Some (status r)) (VStr c))).
Proof.
  intros fine content decoded envelope.
  rewrite (request_fulfilled _ _ _ _ _ _ _ built _ settled).
  rewrite (response_failure _ content _ _ _ decoded envelope).
  cbn [outcome snd]. rewrite throwMappedError_other by lia. reflexivity.
Qed.

(** C1, amended.  On a failure envelope, a status among 400, 401, 404 and
    429 or a status from 500 on makes [request] throw an error of the kind
    the table of section 4.1 gives, with the envelope's message; its
    [statusCode] is the status for 400, 401, 404 and 429, and is 500 for
    every status from 500 on. *)
Theorem C1_kind_of_status (j : JSON) (c m : string) :
  status r = 400 \/ status r = 401 \/ status r = 404 \/ status r = 429
  \/ 500 <= status r ->
  json r = Some j ->
  failure_envelope j = Some (c, m) ->
  exists e,
    outcome (request rt this method path body params) = Throw (SdkError e)
    /\ kind e = table_kind (status r)
    /\ message e = m
    /\ statusCode e = Some (if 500 <=? status r then 500 else status r).
Proof.
  intros listed decoded envelope.
  assert (content : status r <> 204) by lia.
  rewrite (request_fulfilled _ _ _ _ _ _ _ built _ settled).
  rewrite (response_failure _ content _ _ _ decoded envelope).
  cbn [outcome snd].
  destruct listed as [-> | [-> | [-> | [-> | above]]]];
    try (eexists; split; [reflexivity|]; cbn; auto).
  rewrite throwMappedError_server by exact above.
  eexists; split; [reflexivity|]. unfold table_kind.
  rewrite (proj2 (Z.eqb_neq (status r) 400)),
    (proj2 (Z.eqb_neq (status r) 401)), (proj2 (Z.eqb_neq (status r) 404)),
    (proj2 (Z.eqb_neq (status r) 429)), (proj2 (Z.leb_le 500 (status r)))
    by lia.
  cbn; auto.
Qed.

(** C2, amended.  For a decoded body on a status other than 204: a failure
    envelope makes [request] throw an error with the envelope's message, and
    a NotFound one on 404; a body for which [request] throws and that has
    no [error] member to read, namely an array, an object without [error]
    member whose [success] is missing or falsy (on every status, those in
    200..299 included), or an object with a truthy [success] on a status
    outside 200..299, makes it throw an error with the message
    [HTTP <status>].  The [code] of the error is the envelope's code (none
    in the second case) only when the status is outside the table of
    section 4.1; for a status of the table it is the fixed code of the
    error class. *)
Theorem C2_message_and_code (j : JSON) :
  status r <> 204 ->
  json r = Some j ->
  (forall c m,
     failure_envelope j = Some (c, m) ->
     exists e,
       outcome (request rt this method path body params)
       = Throw (SdkError e)
       /\ message e = m
       /\ code e = mapped_code (status r) (VStr c)
       /\ (status r = 404 -> kind e = NotFound))
  /\
  ((exists items, j = JArr items)
   \/ (exists props,
         j = JObj props
         /\ falsy_member "success" props /\ lookup "error" props = None)
   \/ (exists props s,
         j = JObj props
         /\ lookup "success" props = Some s /\ truthy (VJson s) = true
         /\ ~ 200 <= status r <= 299) ->
   exists e,
     outcome (request rt this method path body params)
     = Throw (SdkError e)
     /\ message e = "HTTP " ++ Number_toString (status r)
     /\ code e = mapped_code (status r) VUndefined).
Proof.
  intros content decoded.
  rewrite (request_fulfilled _ _ _ _ _ _ _ built _ settled).
  split.
  - intros c m envelope.
    rewrite (response_failure _ content _ _ _ decoded envelope).
    cbn [outcome snd]. unfold throwMappedError, mapped_code, table_kind.
    destruct (status r =? 400) eqn:E400;
      [|destruct (status r =? 401) eqn:E401;
        [|destruct (status r =? 404) eqn:E404;
          [|destruct (status r =? 429) eqn:E429;
            [|destruct (500 <=? status r) eqn:E500]]]];
      (eexists; split; [reflexivity|]; cbn; repeat split; auto;
       intros is404; rewrite is404 in *; discriminate).
  - intros shape.
    assert (thrown : request_response r
                     = ([ReadJson],
                        Throw (throwMappedError (status r)
                                 (VStr ("HTTP "
                                        ++ Number_toString (status r)))
                                 VUndefined))).
    { destruct shape as [array | [unmarked | (props & s & -> & Hs & Ht & failing)]].
      - apply (response_unmarked _ content _ decoded). left. exact array.
      - apply (response_unmarked _ content _ decoded). right. exact unmarked.
      - apply (response_not_ok _ content _ decoded).
        + destruct (ok r) eqn:E; [|reflexivity].
          exfalso. apply failing, ok_iff, E.
        + left. exists s. split; assumption. }
    rewrite thrown.
    cbn [outcome snd]. unfold throwMappedError, mapped_code, table_kind.
    destruct (status r =? 400) eqn:E400;
      [|destruct (status r =? 401) eqn:E401;
        [|destruct (status r =? 404) eqn:E404;
          [|destruct (status r =? 429) eqn:E429;
            [|destruct (500 <=? status r) eqn:E500]]]];
      (eexists; split; [reflexivity|]; cbn; auto).
Qed.

End Fulfilled.

(** ** Rejections *)

Section Rejection.

Variables (rt : Runtime) (this : HttpClient).
Variables (method path : string) (body : option JSON).
Variables (params : option Params) (url : string).

Hypothesis built : buildUrl rt this path params = inl url.

(** C6.  When the transport call is aborted, which only the timer armed with
    the configured timeout does, and so rejects with the [DOMException]
    named [AbortError], [request] throws the Timeout error: a base-class
    error with code [TIMEOUT_ERROR] whose message spells out the configured
    number of milliseconds the way [Number::toString] prints it, whatever
    number the timeout is. *)
Theorem C6_timeout (reason : string) :
  fetch rt url (request_init rt this method body)
  = Rejected (DOMException "AbortError" reason) ->
  init_signal (request_init rt this method body) = timeout this
  /\ exists e,
    outcome (request rt this method path body params) = Throw (SdkError e)
    /\ kind e = Timeout
    /\ message e
       = "Request timed out after " ++ ToString_number (timeout this) ++ "ms"
    /\ contains (ToString_number (timeout this)) (message e).
Proof.
  intros aborted. split; [reflexivity|].
  rewrite (request_rejected _ _ _ _ _ _ _ built _ aborted).
  eexists. split; [reflexivity|]. cbn. repeat split.
  exists "Request timed out after ", "ms". reflexivity.
Qed.

(** C7.  When the transport call fails below HTTP, so that [fetch] rejects
    with an [Error] that is no [DOMException], [request] throws the Network
    error: a base-class error with code [NETWORK_ERROR] whose message is the
    message of that failure. *)
Theorem C7_network_failure (failure description : string) :
  fetch rt url (request_init rt this method body)
  = Rejected (ErrorInstance failure description) ->
  exists e,
    outcome (request rt this method path body params) = Throw (SdkError e)
    /\ kind e = Network
    /\ code e = VStr "NETWORK_ERROR"
    /\ message e = description.
Proof.
  intros failed.
  rewrite (request_rejected _ _ _ _ _ _ _ built _ failed).
  eexists. split; [reflexivity|]. cbn. auto.
Qed.

End Rejection.

(** ** The query list under [set] *)

Section QueryList.

Implicit Types (k v : string) (l : list (string * string)).

Lemma named_cons k k' v' l :
  filter (named k) ((k', v') :: l)
  = if (k' =? k)%string then (k', v') :: filter (named k) l
    else filter (named k) l.
Proof. reflexivity. Qed.

Lemma remove_name_cons k k' v' l :
  remove_name k ((k', v') :: l)
  = if (k' =? k)%string then remove_name k l
    else (k', v') :: remove_name k l.
Proof.
  unfold remove_name. cbn [filter fst]. destruct (k' =? k)%string; reflexivity.
Qed.

Lemma named_remove_name k l : filter (named k) (remove_name k l) = [].
Proof.
  induction l as [|[k' v'] l IH]; [reflexivity|].
  rewrite remove_name_cons. destruct (k' =? k)%string eqn:E; [exact IH|].
  rewrite named_cons, E. exact IH.
Qed.

Lemma named_remove_other k k' l :
  k <> k' -> filter (named k) (remove_name k' l) = filter (named k) l.
Proof.
  intros distinct. induction l as [|[k0 v0] l IH]; [reflexivity|].
  rewrite remove_name_cons, named_cons.
  destruct (k0 =? k')%string eqn:E'.
  - apply String.eqb_eq in E'. subst k0.
    rewrite (proj2 (String.eqb_neq k' k)) by congruence. exact IH.
  - rewrite named_cons. destruct (k0 =? k)%string; [f_equal|]; exact IH.
Qed.

Lemma named_set_tuple k v l : filter (named k) (set_tuple k v l) = [(k, v)].
Proof.
  induction l as [|[k' v'] l IH]; cbn [set_tuple].
  - rewrite named_cons, String.eqb_refl. reflexivity.
  - destruct (k' =? k)%string eqn:E; rewrite named_cons, E.
    + apply String.eqb_eq in E. subst k'. rewrite named_remove_name.
      reflexivity.
    + exact IH.
Qed.

Lemma named_set_other k k' v l :
  k <> k' -> filter (named k) (set_tuple k' v l) = filter (named k) l.
Proof.
  intros distinct. induction l as [|[k0 v0] l IH]; cbn [set_tuple].
  - rewrite named_cons, (proj2 (String.eqb_neq k' k)) by congruence.
    reflexivity.
  - destruct (k0 =? k')%string eqn:E'; rewrite !named_cons.
    + apply String.eqb_eq in E'. subst k0.
      rewrite (proj2 (String.eqb_neq k' k)) by congruence.
      apply named_remove_other, distinct.
    + destruct (k0 =? k)%string; [f_equal|]; exact IH.
Qed.

Lemma set_tuple_not_nil k v l : set_tuple k v l <> [].
Proof.
  destruct l as [|[k' v'] l]; cbn [set_tuple]; [discriminate|].
  destruct (k' =? k)%string; discriminate.
Qed.

Lemma named_sound k k' v' l :
  In (k', v') (filter (named k) l) -> k' = k /\ In (k', v') l.
Proof.
  intros member. apply filter_In in member. destruct member as [member is_k].
  split; [apply String.eqb_eq, is_k | exact member].
Qed.

End QueryList.

(** ** Occurrences in the serialized query *)

Lemma append_assoc (a b c : string) : (a ++ b) ++ c = a ++ b ++ c.
Proof. induction a as [|x a IH]; cbn; [|rewrite IH]; reflexivity. Qed.

Lemma contains_refl_between (pre needle post : string) :
  contains needle (pre ++ needle ++ post).
Proof. exists pre, post. reflexivity. Qed.

Lemma contains_append (pre needle hay post : string) :
  contains needle hay -> contains needle (pre ++ hay ++ post).
Proof.
  intros (a & b & ->). exists (pre ++ a), (b ++ post).
  rewrite !append_assoc. reflexivity.
Qed.

Lemma serialized_not_empty (k v : string) (l : list (string * string)) :
  (urlencoded_serialize ((k, v) :: l) =? "")%string = false.
Proof.
  cbn [urlencoded_serialize]. destruct (urlencode k); reflexivity.
Qed.

Lemma serialized_contains (k v : string) (l : list (string * string)) :
  In (k, v) l ->
  contains (urlencode k ++ "=" ++ urlencode v) (urlencoded_serialize l).
Proof.
  induction l as [|[k' v'] l IH]; [intros []|].
  intros [[= -> ->] | member]; cbn [urlencoded_serialize].
  - exists "", (match l with [] => "" | _ :: _ =>
                  "&" ++ urlencoded_serialize l end).
    cbn [append]. rewrite !append_assoc. reflexivity.
  - destruct l as [|p l]; [destruct member|].
    specialize (IH member). destruct IH as (a & b & ->).
    exists (urlencode k' ++ "=" ++ urlencode v' ++ "&" ++ a), b.
    rewrite !append_assoc. reflexivity.
Qed.

(** ** [buildUrl] *)

Section BuildUrl.

Implicit Types (u : URL) (entries : Params) (k : string).

Lemma getAll_set_same u k v : searchParams_getAll (searchParams_set u k v) k = [v].
Proof.
  unfold searchParams_getAll, searchParams_set. cbn [searchParams].
  rewrite named_set_tuple. reflexivity.
Qed.

Lemma getAll_set_other u k k' v :
  k <> k' ->
  searchParams_getAll (searchParams_set u k' v) k = searchParams_getAll u k.
Proof.
  intros distinct. unfold searchParams_getAll, searchParams_set.
  cbn [searchParams]. rewrite named_set_other by exact distinct. reflexivity.
Qed.

Lemma has_getAll u k :
  searchParams_has u k
  = match searchParams_getAll u k with [] => false | _ :: _ => true end.
Proof.
  unfold searchParams_has, searchParams_getAll.
  induction (searchParams u) as [|p l IH]; [reflexivity|].
  cbn [existsb filter]. destruct (named k p); [reflexivity | exact IH].
Qed.

Lemma getAll_member u k v :
  searchParams_getAll u k = [v] -> In (k, v) (searchParams u).
Proof.
  unfold searchParams_getAll. intros single.
  destruct (filter (named k) (searchParams u)) as [|[k' v'] rest] eqn:E;
    [discriminate|].
  injection single as -> _.
  destruct (named_sound k k' v (searchParams u)) as [-> member];
    [rewrite E; left; reflexivity | exact member].
Qed.

(** An entry holding [undefined] sets nothing, and neither does an entry
    under another key. *)
Lemma set_params_untouched entries k :
  (forall value, ~ In (k, Some value) entries) ->
  forall u,
    searchParams_getAll (set_params u entries) k = searchParams_getAll u k.
Proof.
  induction entries as [|[k' [value'|]] entries IH]; intros unset u;
    cbn [set_params]; [reflexivity| |].
  - rewrite IH by (intros value member; apply (unset value); right; exact member).
    apply getAll_set_other. intros ->. apply (unset value'). left. reflexivity.
  - apply IH. intros value member. apply (unset value). right. exact member.
Qed.

Lemma set_params_present entries k value :
  NoDup (map fst entries) ->
  In (k, Some value) entries ->
  forall u,
    searchParams_getAll (set_params u entries) k = [String_of value].
Proof.
  induction entries as [|[k' o'] entries IH]; intros unique member u;
    [destruct member|].
  cbn [map fst] in unique. apply NoDup_cons_iff in unique.
  destruct unique as [fresh unique].
  destruct member as [[= -> ->] | member].
  - cbn [set_params]. rewrite set_params_untouched; [apply getAll_set_same|].
    intros value' member. apply fresh.
    apply (in_map fst) in member. exact member.
  - destruct o' as [value'|]; cbn [set_params]; apply IH; assumption.
Qed.

Lemma set_params_unset entries u :
  (forall k value, ~ In (k, Some value) entries) -> set_params u entries = u.
Proof.
  induction entries as [|[k' [value'|]] entries IH]; intros unset;
    cbn [set_params]; [reflexivity| |].
  - destruct (unset k' value'). left. reflexivity.
  - apply IH. intros k value member. apply (unset k value). right. exact member.
Qed.

Lemma set_in_step u k v : in_step (searchParams_set u k v).
Proof.
  unfold in_step, searchParams_set. cbn [url_query searchParams].
  destruct (set_tuple k v (searchParams u)) as [|[k' v'] l] eqn:E.
  - destruct (set_tuple_not_nil _ _ _ E).
  - rewrite serialized_not_empty. reflexivity.
Qed.

Lemma set_params_in_step entries :
  forall u,
    in_step u \/ (exists k value, In (k, Some value) entries) ->
    in_step (set_params u entries).
Proof.
  induction entries as [|[k' [value'|]] entries IH]; intros u start;
    cbn [set_params].
  - destruct start as [start | (k & value & [])]. exact start.
  - apply IH. left. apply set_in_step.
  - apply IH. destruct start as [start | (k & value & [[=] | member])];
      [left; exact start | right; exists k, value; exact member].
Qed.

Lemma set_params_frame entries :
  forall u,
    url_base (set_params u entries) = url_base u
    /\ url_fragment (set_params u entries) = url_fragment u.
Proof.
  induction entries as [|[k' [value'|]] entries IH]; intros u;
    cbn [set_params]; [split; reflexivity| |apply IH].
  destruct (IH (searchParams_set u k' (String_of value'))) as [-> ->].
  split; reflexivity.
Qed.

Lemma every_append (p : ascii -> bool) (a b : string) :
  every p (a ++ b) = every p a && every p b.
Proof.
  induction a as [|x a IH]; [reflexivity|].
  cbn [append every]. rewrite IH. apply andb_assoc.
Qed.

(** What the serializer keeps, it leaves as it is. *)
Lemma urlencode_safe (s : string) :
  every urlencoded_safe s = true -> urlencode s = s.
Proof.
  induction s as [|c s IH]; [reflexivity|].
  cbn [every urlencode]. intros kept. apply andb_true_iff in kept.
  destruct kept as [kept rest]. rewrite kept, (IH rest).
  destruct (c =? " ")%char eqn:space; [|reflexivity].
  apply Ascii.eqb_eq in space. subst c. discriminate kept.
Qed.

Lemma digits_safe (d : Decimal.uint) :
  every urlencoded_safe (NilEmpty.string_of_uint d) = true.
Proof.
  induction d; cbn [NilEmpty.string_of_uint every]; try rewrite IHd;
    reflexivity.
Qed.

Lemma numeral_safe (d : Decimal.uint) :
  every urlencoded_safe (NilZero.string_of_uint d) = true.
Proof.
  unfold NilZero.string_of_uint.
  destruct d; try reflexivity; apply digits_safe.
Qed.

Lemma zeros_safe (m : nat) : every urlencoded_safe (zeros m) = true.
Proof. induction m as [|m IH]; [reflexivity | exact IH]. Qed.

Lemma substring_safe (s : string) :
  every urlencoded_safe s = true ->
  forall a b, every urlencoded_safe (substring a b s) = true.
Proof.
  induction s as [|c s IH]; intros kept a b.
  - destruct a, b; reflexivity.
  - cbn [every] in kept. apply andb_true_iff in kept.
    destruct kept as [kept rest].
    destruct a as [|a]; [destruct b as [|b]|]; cbn [substring every].
    + reflexivity.
    + rewrite kept. apply (IH rest).
    + apply (IH rest).
Qed.

Lemma digits_toString_safe (d : Decimal.uint) (n : Z) :
  n <= 21 -> every urlencoded_safe (digits_toString d n) = true.
Proof.
  intros small. unfold digits_toString.
  pose proof (digits_safe d) as kept.
  destruct ((-6 <? n) && (n <=? 21)) eqn:plain.
  - destruct (Z.of_nat (String.length (NilEmpty.string_of_uint d)) <=? n).
    + rewrite every_append, kept, zeros_safe. reflexivity.
    + destruct (0 <? n).
      * rewrite !every_append, !substring_safe by exact kept. reflexivity.
      * rewrite !every_append, kept, zeros_safe. reflexivity.
  - assert (down : (n - 1 <? 0) = true).
    { apply Z.ltb_lt. apply andb_false_iff in plain.
      destruct plain as [low | high];
        [apply Z.ltb_ge in low | apply Z.leb_gt in high]; lia. }
    rewrite down.
    destruct (NilEmpty.string_of_uint d) as [|c [|c' rest]];
      cbn [every] in kept; rewrite ?every_append; cbn [every];
      rewrite ?every_append, numeral_safe.
    + reflexivity.
    + apply andb_true_iff in kept. destruct kept as [-> _]. reflexivity.
    + apply andb_true_iff in kept. destruct kept as [-> kept].
      cbn [every] in kept. rewrite kept. reflexivity.
Qed.

(** A number below 1e21 prints in characters the serializer keeps. *)
Lemma number_safe (x : number) :
  exponent_plus x = false ->
  every urlencoded_safe (ToString_number x) = true.
Proof.
  destruct x as [|[|]|negative|negative d n]; try reflexivity.
  cbn [exponent_plus ToString_number]. intros small.
  apply Z.ltb_ge in small. rewrite every_append.
  rewrite (digits_toString_safe d n small).
  destruct negative; reflexivity.
Qed.

Lemma literal_safe (value : param) :
  literal value = true -> urlencode (String_of value) = String_of value.
Proof.
  destruct value as [s|x|[|]]; cbn [literal String_of]; intros kept.
  - apply urlencode_safe, kept.
  - apply urlencode_safe, number_safe. destruct (exponent_plus x);
      [discriminate kept | reflexivity].
  - reflexivity.
  - reflexivity.
Qed.

(** C3.  [buildUrl] over the entries of a parameter object, whose keys are
    distinct.  A key holding [undefined] contributes nothing: the URL names
    it exactly as often as the URL of base and path alone does, so not at
    all when that one carries no such parameter.  A key holding a value,
    be it [0], [false] or the empty string, is in the query exactly once,
    with [String(value)] as its value, for every number as
    [Number::toString] prints it; the URL string is the base, [?], the
    serialized query and the fragment, and [key=value] occurs in it in
    urlencoded form, which for a boolean, for a number below 1e21 and for
    a string of characters the serializer keeps is [String(value)]
    itself. *)
Theorem C3_query_parameters (rt : Runtime) (this : HttpClient)
    (path : string) (entries : Params) (u0 : URL) :
  URL_parse rt (baseUrl this ++ path) = Some u0 ->
  NoDup (map fst entries) ->
  exists u,
    buildUrl_object rt this path (Some entries) = inl u
    /\ buildUrl rt this path (Some entries) = inl (URL_toString u)
    /\ (forall key,
          In (key, None) entries ->
          searchParams_getAll u key = searchParams_getAll u0 key
          /\ searchParams_has u key = searchParams_has u0 key
          /\ (searchParams_has u0 key = false ->
              ~ In key (map fst (searchParams u))))
    /\ (forall key value,
          In (key, Some value) entries ->
          searchParams_getAll u key = [String_of value]
          /\ URL_toString u
             = url_base u0 ++ "?" ++ urlencoded_serialize (searchParams u)
               ++ match url_fragment u0 with
                  | None => ""
                  | Some f => "#" ++ f
                  end
          /\ contains (urlencode key ++ "=" ++ urlencode (String_of value))
               (URL_toString u)
          /\ (literal value = true ->
              contains (urlencode key ++ "=" ++ String_of value)
                (URL_toString u))).
Proof.
  intros parsed unique. exists (set_params u0 entries).
  unfold buildUrl, buildUrl_object. rewrite parsed.
  split; [reflexivity|]. split; [reflexivity|]. split.
  - intros key undefined.
    assert (same : searchParams_getAll (set_params u0 entries) key
                   = searchParams_getAll u0 key).
    { apply set_params_untouched. intros value member.
      assert (clash : Some value = (None : option param));
        [|discriminate clash].
      clear - unique undefined member.
      induction entries as [|[k' o'] entries IH]; [destruct member|].
      cbn [map fst] in unique. apply NoDup_cons_iff in unique.
      destruct unique as [fresh unique].
      destruct member as [[= -> ->] | member];
        destruct undefined as [[=] | undefined].
      - destruct fresh. apply (in_map fst) in undefined. exact undefined.
      - subst. destruct fresh. apply (in_map fst) in member. exact member.
      - apply IH; assumption. }
    split; [exact same|].
    split; [rewrite !has_getAll, same; reflexivity|].
    intros unnamed named_here. apply in_map_iff in named_here.
    destruct named_here as ([k v] & named_key & member).
    cbn [fst] in named_key. subst k.
    assert (found : searchParams_has (set_params u0 entries) key = true).
    { unfold searchParams_has. apply existsb_exists. exists (key, v).
      split; [exact member | apply String.eqb_refl]. }
    rewrite has_getAll, same, <- has_getAll, unnamed in found.
    discriminate found.
  - intros key value member.
    pose proof (set_params_present _ _ _ unique member u0) as single.
    assert (href : URL_toString (set_params u0 entries)
                   = url_base u0 ++ "?"
                     ++ urlencoded_serialize
                          (searchParams (set_params u0 entries))
                     ++ match url_fragment u0 with
                        | None => ""
                        | Some f => "#" ++ f
                        end).
    { unfold URL_toString.
      rewrite (set_params_in_step entries u0)
        by (right; exists key, value; exact member).
      destruct (set_params_frame entries u0) as [-> ->].
      rewrite !append_assoc. reflexivity. }
    assert (occurs : contains
                       (urlencode key ++ "=" ++ urlencode (String_of value))
                       (URL_toString (set_params u0 entries))).
    { rewrite href.
      rewrite <- (append_assoc (url_base u0) "?").
      apply contains_append, serialized_contains, getAll_member, single. }
    repeat split; [exact single | exact href | exact occurs |].
    intros plain. rewrite <- (literal_safe value plain). exact occurs.
Qed.

End BuildUrl.

(** ** Runs against the mock host *)

Example run_not_found :
  get (answering 404 envelope_not_found) client "/agents/x" None
  = (transport_events (answering 404 envelope_not_found) client "GET" None
       "https://agentgram.co/api/v1/agents/x" ++ [ReadJson],
     Throw (SdkError (mkAgentGramError NotFoundErrorClass "NotFoundError"
                        "no such agent" (Some 404)
                        (VStr "NOT_FOUND_ERROR"))))%list.
Proof. reflexivity. Qed.

Example run_list_query :
  buildUrl aborting client "/posts" (Some list_query)
  = inl "https://agentgram.co/api/v1/posts?limit=0&unread=false&sort=hot".
Proof. reflexivity. Qed.

Example run_escaped_query :
  buildUrl aborting client "/posts"
    (Some [("q", Some (PString "a b&c")); ("tag", Some (PString ""))])
  = inl "https://agentgram.co/api/v1/posts?q=a+b%26c&tag=".
Proof. reflexivity. Qed.

(** C1 as stated fails at 502: the error is a Server error, as the table
    has it, but its [statusCode] is 500. *)
Lemma C1_bad_gateway_reports_500 :
  failure_envelope envelope_not_found = Some ("NOT_FOUND", "no such agent")
  /\ exists e,
    outcome (get (answering 502 envelope_not_found) client "/agents/x" None)
    = Throw (SdkError e)
    /\ kind e = table_kind 502
    /\ statusCode e = Some 500
    /\ statusCode e <> Some 502.
Proof.
  split; [reflexivity|]. eexists. split; [reflexivity|].
  cbn. repeat split. discriminate.
Qed.

Lemma C1_kind_of_status_witness :
  exists e,
    outcome (get (answering 503 envelope_not_found) client "/agents/x" None)
    = Throw (SdkError e)
    /\ kind e = table_kind 503
    /\ message e = "no such agent"
    /\ statusCode e = Some 500.
Proof.
  apply (C1_kind_of_status (answering 503 envelope_not_found) client
           "GET" "/agents/x" None None
           "https://agentgram.co/api/v1/agents/x"
           (mkResponse 503 (Some envelope_not_found))
           eq_refl eq_refl envelope_not_found "NOT_FOUND" "no such agent").
  - right. right. right. right. cbn. discriminate.
  - reflexivity.
  - reflexivity.
Defined.

(** C2 as stated fails on its own scenario: the NotFound error carries the
    envelope's message, but its code is the one of the class and not the
    envelope's [NOT_FOUND].  It also fails on bodies that are no failure
    envelope: on 500 with the body [{"error": "boom"}] the message is the
    default of [ServerError] and not [HTTP 500], and with the body [null]
    what is thrown is a [TypeError] of the host. *)
Lemma C2_fails_on_code_and_other_bodies :
  (failure_envelope envelope_not_found = Some ("NOT_FOUND", "no such agent")
   /\ exists e,
     outcome (get (answering 404 envelope_not_found) client "/agents/x" None)
     = Throw (SdkError e)
     /\ kind e = NotFound
     /\ message e = "no such agent"
     /\ code e = VStr "NOT_FOUND_ERROR"
     /\ code e <> VStr "NOT_FOUND")
  /\ (failure_envelope error_without_message = None
      /\ exists e,
        outcome (get (answering 500 error_without_message) client
                   "/agents/x" None)
        = Throw (SdkError e)
        /\ message e = "Internal server error"
        /\ message e <> "HTTP " ++ Number_toString 500)
  /\ (failure_envelope JNull = None
      /\ outcome (get (answering 500 JNull) client "/agents/x" None)
         = Throw (TypeError (ReadOfNullish "success"))).
Proof.
  split; [|split].
  - split; [reflexivity|]. eexists. split; [reflexivity|].
    cbn. repeat split. discriminate.
  - split; [reflexivity|]. eexists. split; [reflexivity|].
    cbn. split; [reflexivity | discriminate].
  - split; reflexivity.
Qed.

Lemma C2_message_and_code_witness :
  exists e,
    outcome (get (answering 404 envelope_not_found) client "/agents/x" None)
    = Throw (SdkError e)
    /\ message e = "no such agent"
    /\ code e = VStr "NOT_FOUND_ERROR"
    /\ (404 = 404 -> kind e = NotFound).
Proof.
  refine (proj1 (C2_message_and_code (answering 404 envelope_not_found)
                   client "GET" "/agents/x" None None
                   "https://agentgram.co/api/v1/agents/x"
                   (mkResponse 404 (Some envelope_not_found))
                   eq_refl eq_refl envelope_not_found _ eq_refl)
                "NOT_FOUND" "no such agent" eq_refl).
  cbn. discriminate.
Defined.

Lemma C3_query_parameters_witness :
  exists u,
    buildUrl_object aborting client "/posts" (Some list_query) = inl u
    /\ buildUrl aborting client "/posts" (Some list_query)
       = inl (URL_toString u)
    /\ (forall key,
          In (key, None) list_query ->
          searchParams_getAll u key = []
          /\ searchParams_has u key = false
          /\ (false = false -> ~ In key (map fst (searchParams u))))
    /\ (forall key value,
          In (key, Some value) list_query ->
          searchParams_getAll u key = [String_of value]
          /\ URL_toString u
             = "https://agentgram.co/api/v1/posts" ++ "?"
               ++ urlencoded_serialize (searchParams u) ++ ""
          /\ contains (urlencode key ++ "=" ++ urlencode (String_of value))
               (URL_toString u)
          /\ (literal value = true ->
              contains (urlencode key ++ "=" ++ String_of value)
                (URL_toString u))).
Proof.
  apply (C3_query_parameters aborting client "/posts" list_query
           (mkURL "https://agentgram.co/api/v1/posts" None None [])
           eq_refl).
  repeat constructor; cbn; intuition discriminate.
Defined.

Lemma C4_no_content_witness :
  post (garbling 204) client "/notifications/read-all" None
  = (transport_events (garbling 204) client "POST" None
       "https://agentgram.co/api/v1/notifications/read-all",
     Return VUndefined)
  /\ ~ In ReadJson
        (events (post (garbling 204) client "/notifications/read-all" None)).
Proof.
  apply (C4_no_content (garbling 204) client "POST"
           "/notifications/read-all" None None
           "https://agentgram.co/api/v1/notifications/read-all"
           (mkResponse 204 None) eq_refl eq_refl eq_refl).
Defined.

Lemma C5_parse_error_witness :
  exists e,
    outcome (get (garbling 200) client "/health" None) = Throw (SdkError e)
    /\ class e = AgentGramErrorClass
    /\ code e = VStr "PARSE_ERROR"
    /\ kind e = Parse /\ kind e <> Generic /\ kind e <> Server
    /\ statusCode e = Some 200.
Proof.
  apply (C5_parse_error (garbling 200) client "GET" "/health" None None
           "https://agentgram.co/api/v1/health" (mkResponse 200 None)
           eq_refl eq_refl).
  - cbn. discriminate.
  - reflexivity.
Defined.

Lemma C6_timeout_witness :
  init_signal (request_init aborting client "GET" None) = integer 30000
  /\ exists e,
    outcome (get aborting client "/health" None) = Throw (SdkError e)
    /\ kind e = Timeout
    /\ message e = "Request timed out after 30000ms"
    /\ contains "30000" (message e).
Proof.
  apply (C6_timeout aborting client "GET" "/health" None None
           "https://agentgram.co/api/v1/health" eq_refl
           "This operation was aborted" eq_refl).
Defined.

Lemma C7_network_failure_witness :
  exists e,
    outcome (get unreachable client "/health" None) = Throw (SdkError e)
    /\ kind e = Network
    /\ code e = VStr "NETWORK_ERROR"
    /\ message e = "fetch failed".
Proof.
  apply (C7_network_failure unreachable client "GET" "/health" None None
           "https://agentgram.co/api/v1/health" eq_refl
           "TypeError" "fetch failed" eq_refl).
Defined.

Lemma C8_success_unwrapped_witness :
  outcome (get (answering 200 envelope_post) client "/posts/p1" None)
  = Return (VJson (JObj [("id", JStr "p1")])).
Proof.
  apply (C8_success_unwrapped (answering 200 envelope_post) client "GET"
           "/posts/p1" None None "https://agentgram.co/api/v1/posts/p1"
           (mkResponse 200 (Some envelope_post)) eq_refl eq_refl
           envelope_post (JObj [("id", JStr "p1")])).
  - cbn. lia.
  - cbn. discriminate.
  - reflexivity.
  - reflexivity.
Defined.

Lemma C9_failure_on_success_status_witness :
  outcome (get (answering 200 envelope_not_found) client "/agents/x" None)
  = Throw (SdkError (mkAgentGramError AgentGramErrorClass "AgentGramError"
                       "no such agent" (Some 200) (VStr "NOT_FOUND"))).
Proof.
  apply (C9_failure_on_success_status (answering 200 envelope_not_found)
           client "GET" "/agents/x" None None
           "https://agentgram.co/api/v1/agents/x"
           (mkResponse 200 (Some envelope_not_found)) eq_refl eq_refl
           envelope_not_found "NOT_FOUND" "no such agent").
  - cbn. lia.
  - cbn. discriminate.
  - reflexivity.
  - reflexivity.
Defined.

(** * Further properties of the pipeline *)

(** ** What the host sees *)

(** X1.  When base URL and path do not parse as a URL, [request] throws the
    [TypeError] of [new URL] before anything else happens: no timer is
    armed and the transport is not called. *)
Theorem invalid_url_stops_request (rt : Runtime) (this : HttpClient)
    (method path : string) (body : option JSON) (params : option Params) :
  URL_parse rt (baseUrl this ++ path) = None ->
  request rt this method path body params = ([], Throw (TypeError InvalidURL)).
Proof.
  intros unparsed. unfold request, request_transport, buildUrl, buildUrl_object.
  rewrite unparsed. reflexivity.
Qed.

Lemma events_bind {A B} (m : M A) (f : A -> M B) :
  events (bind m f)
  = (events m ++ match outcome m with
                 | Return a => events (f a)
                 | Throw _ => []
                 end)%list.
Proof.
  destruct m as [t [a|e]]; cbn [bind events outcome fst snd].
  - destruct (f a); reflexivity.
  - rewrite app_nil_r. reflexivity.
Qed.

Lemma quiet_bind {A B} (m : M A) (f : A -> M B) :
  quiet m -> (forall a, quiet (f a)) -> quiet (bind m f).
Proof.
  unfold quiet. intros silent after. rewrite events_bind, silent.
  destruct (outcome m); [apply after | reflexivity].
Qed.

Lemma quiet_lift {A} (r : A + type_error) : quiet (lift r).
Proof. destruct r; reflexivity. Qed.

Lemma quiet_error_in (json : value) : quiet (error_in json).
Proof.
  apply quiet_bind; [apply quiet_lift|]. intros success.
  destruct (negb (truthy success)); [apply quiet_lift | reflexivity].
Qed.

(** The response phase reads the body once, unless the status is 204. *)
Lemma response_events (r : Response) :
  events (request_response r)
  = if status r =? 204 then [] else [ReadJson].
Proof.
  unfold request_response. destruct (status r =? 204); [reflexivity|].
  rewrite events_bind. destruct (json r) as [j|]; [|reflexivity].
  cbn [bind emit ret app outcome snd].
  change (events ([ReadJson], Return (VJson j))) with [ReadJson].
  cbn [app].
  match goal with
  | |- (_ :: events ?m)%list = _ => assert (silent : quiet m)
  end.
  { apply quiet_bind.
    - destruct (negb (ok r)); [reflexivity|].
      apply quiet_bind; [apply quiet_lift | reflexivity].
    - intros failed. apply quiet_bind; [|intros; apply quiet_lift].
      destruct failed; [|reflexivity].
      apply quiet_bind; [apply quiet_error_in|]. intros has_message.
      apply quiet_bind.
      { destruct has_message; [|reflexivity].
        apply quiet_bind; intros; apply quiet_lift. }
      intros errorMessage.
      apply quiet_bind; [apply quiet_error_in|]. intros has_code.
      apply quiet_bind; [|reflexivity].
      destruct has_code; [|reflexivity].
      apply quiet_bind; intros; apply quiet_lift. }
  rewrite silent. reflexivity.
Qed.

(** The events of a call whose URL was built. *)
Lemma request_call (rt : Runtime) (this : HttpClient)
    (method path : string) (body : option JSON) (params : option Params)
    (url : string) :
  buildUrl rt this path params = inl url ->
  exists tail,
    events (request rt this method path body params)
    = ([SetTimeout (timeout this);
        transport_call rt this method body url;
        ClearTimeout] ++ tail)%list
    /\ (tail = [] \/ tail = [ReadJson]).
Proof.
  intros built.
  destruct (fetch rt url (request_init rt this method body))
    as [r|error] eqn:settled.
  - rewrite (request_fulfilled _ _ _ _ _ _ _ built _ settled).
    exists (events (request_response r)).
    split; [destruct body; reflexivity|].
    rewrite response_events.
    destruct (status r =? 204); [left | right]; reflexivity.
  - rewrite (request_rejected _ _ _ _ _ _ _ built _ settled).
    exists []. split; [destruct body; reflexivity | left; reflexivity].
Qed.

(** X2.  Whatever the host does, a call of [request] reaches the transport
    at most once and disarms every timer it armed.  With no body or a body
    of JSON values it is seen either not at all (the URL did not parse) or
    as: the timer armed with the configured timeout, one transport call to
    the built URL with the given method, the three fixed headers with the
    API key as bearer token, the serialized body if one was given and is
    truthy and none otherwise, the timer disarmed, and then at most one
    read of the response body.  With a body that [JSON.stringify] refuses
    it is seen either not at all or as the timer armed and disarmed, with
    no transport call, and the refusal comes out as a Network error with
    the message of the refusal. *)
Theorem at_most_one_transport_call (rt : Runtime) (this : HttpClient)
    (method path : string) (body : option JSON) (params : option Params) :
  ((exists t, buildUrl rt this path params = inr t
              /\ events (request rt this method path body params) = [])
   \/
   (exists url tail,
      buildUrl rt this path params = inl url
      /\ events (request rt this method path body params)
         = ([SetTimeout (timeout this);
             transport_call rt this method body url;
             ClearTimeout] ++ tail)%list
      /\ (tail = [] \/ tail = [ReadJson])))
  /\
  (forall failure description,
     (exists t, buildUrl rt this path params = inr t
                /\ events (request_refused rt this path params
                             (ErrorInstance failure description)) = [])
     \/
     (exists url,
        buildUrl rt this path params = inl url
        /\ request_refused rt this path params
             (ErrorInstance failure description)
           = ([SetTimeout (timeout this); ClearTimeout],
              Throw (SdkError
                       (mkAgentGramError AgentGramErrorClass
                          "AgentGramError" description None
                          (VStr "NETWORK_ERROR")))))).
Proof.
  split.
  - destruct (buildUrl rt this path params) as [url|t] eqn:built.
    + right. exists url.
      destruct (request_call rt this method path body params url built)
        as (tail & seen & short).
      exists tail. split; [reflexivity|]. split; [exact seen | exact short].
    + left. exists t. split; [reflexivity|].
      unfold request, request_transport. rewrite built. reflexivity.
  - intros failure description. unfold request_refused.
    destruct (buildUrl rt this path params) as [url|t].
    + right. exists url. split; reflexivity.
    + left. exists t. split; reflexivity.
Qed.

(** ** Every way the response phase can end *)

Ltac response_cases :=
  unfold request_response, error_in, read, has_property, lift;
  repeat (cbn [bind ret throw emit app fst snd negb outcome];
          match goal with
          | |- context [lookup ?k ?p] => destruct (lookup k p) eqn:?
          | |- context [ok ?r] => destruct (ok r) eqn:?
          | |- context [truthy ?v] => destruct (truthy v) eqn:?
          | |- context [match ?j with JNull => _ | _ => _ end] =>
              is_var j; destruct j
          end).

(** The response phase returns only the [data] read from a body whose
    [success] is truthy, on a status in 200..299. *)
Lemma response_return (r : Response) (j : JSON) (v : value) :
  status r <> 204 ->
  json r = Some j ->
  outcome (request_response r) = Return v ->
  ok r = true
  /\ (exists success,
        read (VJson j) "success" = inl success /\ truthy success = true)
  /\ read (VJson j) "data" = inl v.
Proof.
  intros content decoded.
  unfold request_response. rewrite (response_not_204 r content), decoded.
  response_cases; intros returned; try discriminate returned;
    injection returned as <-;
    (split; [reflexivity|]; split; [eexists; split; [reflexivity|assumption]|]);
    reflexivity.
Qed.



(** ** Errors without a status *)


(** ** What [request] returns and what its errors carry *)

(** X3.  [request] returns a value only for a response with a status in
    200..299: [undefined] on 204, and otherwise the [data] member of a
    decoded body whose [success] member is truthy.  On every other status
    and on every other body it throws. *)
Theorem returns_only_on_success (rt : Runtime) (this : HttpClient)
    (method path : string) (body : option JSON) (params : option Params)
    (v : value) :
  outcome (request rt this method path body params) = Return v ->
  exists url r,
    buildUrl rt this path params = inl url
    /\ fetch rt url (request_init rt this method body) = Fulfilled r
    /\ 200 <= status r <= 299
    /\ (status r = 204 /\ v = VUndefined
        \/ status r <> 204
           /\ exists j success,
                json r = Some j
                /\ read (VJson j) "success" = inl success
                /\ truthy success = true
                /\ read (VJson j) "data" = inl v).
Proof.
  destruct (buildUrl rt this path params) as [url|t] eqn:built.
  2:{ unfold request, request_transport. rewrite built. discriminate. }
  destruct (fetch rt url (request_init rt this method body))
    as [r|error] eqn:settled.
  2:{ rewrite (request_rejected _ _ _ _ _ _ _ built _ settled). discriminate. }
  rewrite (request_fulfilled _ _ _ _ _ _ _ built _ settled).
  cbn [outcome snd]. intros returned. exists url, r.
  split; [reflexivity|]. split; [exact settled|].
  destruct (Z.eq_dec (status r) 204) as [no_content|content].
  - split; [lia|]. left. split; [exact no_content|].
    unfold request_response in returned.
    rewrite no_content in returned. cbn in returned. congruence.
  - destruct (json r) as [j|] eqn:decoded.
    + destruct (response_return r j v content decoded returned)
        as (fine & (success & Hs & Ht) & Hd).
      split; [apply ok_iff, fine|]. right. split; [exact content|].
      exists j, success. auto.
    + rewrite (response_undecodable r content decoded) in returned.
      discriminate returned.
Qed.


(** ** Bodies that are not the envelopes of the API *)

Section Bodies.

Variables (rt : Runtime) (this : HttpClient).
Variables (method path : string) (body : option JSON).
Variables (params : option Params) (url : string) (r : Response).

Hypothesis built : buildUrl rt this path params = inl url.
Hypothesis settled :
  fetch rt url (request_init rt this method body) = Fulfilled r.

(** X5.  On a status that the table does not name (403, 409, 422, any 1xx
    or 3xx) a failure envelope makes [request] throw an instance of the
    base class with the status as [statusCode] and the envelope's message
    and code; an object with a truthy [success] or without an [error]
    member, when the status is outside 200..299, makes it throw the same
    with the message [HTTP <status>] and no code. *)
Theorem unlisted_status_is_generic (j : JSON) :
  unlisted (status r) ->
  status r <> 204 ->
  json r = Some j ->
  (forall c m,
     failure_envelope j = Some (c, m) ->
     outcome (request rt this method path body params)
     = Throw (SdkError (mkAgentGramError AgentGramErrorClass
                          "AgentGramError" m (Some (status r)) (VStr c))))
  /\
  (forall props,
     j = JObj props ->
     ~ 200 <= status r <= 299 ->
     (exists s, lookup "success" props = Some s /\ truthy (VJson s) = true)
     \/ lookup "error" props = None ->
     outcome (request rt this method path body params)
     = Throw (SdkError (mkAgentGramError AgentGramErrorClass
                          "AgentGramError"
                          ("HTTP " ++ Number_toString (status r))
                          (Some (status r)) VUndefined))).
Proof.
  intros (n400 & n401 & n404 & n429 & below) content decoded.
  rewrite (request_fulfilled _ _ _ _ _ _ _ built _ settled).
  split.
  - intros c m envelope.
    rewrite (response_failure _ content _ _ _ decoded envelope).
    cbn [outcome snd]. rewrite throwMappedError_other by assumption.
    reflexivity.
  - intros props -> failing shape.
    assert (not_ok : ok r = false).
    { destruct (ok r) eqn:E; [|reflexivity].
      exfalso. apply failing, ok_iff, E. }
    rewrite (response_not_ok _ content _ decoded not_ok shape).
    cbn [outcome snd]. rewrite throwMappedError_other by assumption.
    reflexivity.
Qed.

(** X6.  A body that decodes to [null], a boolean, a number or a string
    makes [request] throw a [TypeError] of the host instead of an SDK
    error, on every status but 204: reading [success] from [null] fails,
    and so does [in] on the other three. *)
Theorem primitive_body_throws_type_error (j : JSON) :
  status r <> 204 ->
  json r = Some j ->
  primitive j = true ->
  outcome (request rt this method path body params)
  = Throw (TypeError (match j with
                      | JNull => ReadOfNullish "success"
                      | _ => InOnPrimitive "error"
                      end)).
Proof.
  intros content decoded simple.
  rewrite (request_fulfilled _ _ _ _ _ _ _ built _ settled).
  cbn [outcome snd]. unfold request_response.
  rewrite (response_not_204 r content), decoded.
  destruct j; try discriminate simple; response_cases;
    first [reflexivity | discriminate].
Qed.

(** X7.  A body without the discriminant is a failure even on a status in
    200..299: an array, or an object whose [success] is missing or falsy
    and that has no [error] member, makes [request] throw what
    [throwMappedError] makes of the status and [HTTP <status>], which on a
    status in 200..299 other than 204 is an instance of the base class with
    that status and no code. *)
Theorem missing_discriminant_is_failure (j : JSON) :
  status r <> 204 ->
  json r = Some j ->
  (exists items, j = JArr items)
  \/ (exists props,
        j = JObj props
        /\ falsy_member "success" props /\ lookup "error" props = None) ->
  outcome (request rt this method path body params)
  = Throw (throwMappedError (status r)
             (VStr ("HTTP " ++ Number_toString (status r))) VUndefined)
  /\ (200 <= status r <= 299 ->
      outcome (request rt this method path body params)
      = Throw (SdkError (mkAgentGramError AgentGramErrorClass
                           "AgentGramError"
                           ("HTTP " ++ Number_toString (status r))
                           (Some (status r)) VUndefined))).
Proof.
  intros content decoded shape.
  assert (thrown : outcome (request rt this method path body params)
                   = Throw (throwMappedError (status r)
                              (VStr ("HTTP " ++ Number_toString (status r)))
                              VUndefined)).
  { rewrite (request_fulfilled _ _ _ _ _ _ _ built _ settled).
    cbn [outcome snd]. unfold request_response.
    rewrite (response_not_204 r content), decoded.
    destruct shape as [(items & ->) | (props & -> & falsy & missing)].
    - response_cases; first [reflexivity | discriminate].
    - unfold falsy_member in falsy. revert falsy.
      cbn [bind ret emit app].
      unfold error_in, read, has_property, lift. rewrite missing.
      destruct (lookup "success" props) as [s|];
        [intros falsy|intros _]; destruct (ok r);
        cbn [bind ret throw emit app negb]; rewrite ?falsy; reflexivity. }
  split; [exact thrown|]. intros fine. rewrite thrown.
  rewrite throwMappedError_other by lia. reflexivity.
Qed.

(** X8.  When the body has a missing or falsy [success] and an [error]
    member that has no [message] (an empty object, a string, a number),
    the error [request] throws carries the default message of its class:
    [Validation failed] on 400, [Authentication failed] on 401,
    [Resource not found] on 404, [Rate limit exceeded] on 429,
    [Internal server error] from 500 on, and the empty message of the base
    class on every other status. *)
Theorem missing_message_takes_default (props : list (string * JSON))
    (error : JSON) :
  status r <> 204 ->
  json r = Some (JObj props) ->
  falsy_member "success" props ->
  lookup "error" props = Some error ->
  read (VJson error) "message" = inl VUndefined ->
  exists e,
    outcome (request rt this method path body params) = Throw (SdkError e)
    /\ message e = default_message (table_kind (status r)).
Proof.
  intros content decoded falsy member unset.
  rewrite (request_fulfilled _ _ _ _ _ _ _ built _ settled).
  cbn [outcome snd]. unfold request_response.
  rewrite (response_not_204 r content), decoded.
  assert (coded : exists c, read (VJson error) "code" = inl c).
  { destruct error; try discriminate unset; cbn [read]; eauto.
    destruct (lookup "code" props0); eauto. }
  destruct coded as [c coded].
  unfold falsy_member in falsy. revert falsy.
  cbn [bind ret emit app]. unfold error_in.
  cbn [read lift bind ret emit app]. rewrite member.
  destruct (lookup "success" props) as [s|]; [intros falsy|intros _];
    destruct (ok r);
    repeat (cbn [bind ret throw emit app negb lift has_property];
            rewrite ?falsy, ?member, ?unset, ?coded;
            change (truthy VUndefined) with false);
    cbn [outcome snd]; unfold throwMappedError, table_kind;
    (destruct (status r =? 400) eqn:E400;
     [|destruct (status r =? 401) eqn:E401;
       [|destruct (status r =? 404) eqn:E404;
         [|destruct (status r =? 429) eqn:E429;
           [|destruct (500 <=? status r) eqn:E500]]]]);
    (eexists; split; [reflexivity|reflexivity]).
Qed.

(** X9.  On a status in 200..299 other than 204, an object whose [success]
    member is truthy, a boolean or not, makes [request] return its [data]
    member, and [undefined] when it has none; an [error] member beside it
    changes nothing. *)
Theorem truthy_success_returns_data (props : list (string * JSON))
    (s : JSON) :
  200 <= status r <= 299 ->
  status r <> 204 ->
  json r = Some (JObj props) ->
  lookup "success" props = Some s ->
  truthy (VJson s) = true ->
  outcome (request rt this method path body params)
  = Return (match lookup "data" props with
            | Some d => VJson d
            | None => VUndefined
            end).
Proof.
  intros fine content decoded member yes.
  rewrite (request_fulfilled _ _ _ _ _ _ _ built _ settled).
  cbn [outcome snd]. unfold request_response.
  rewrite (response_not_204 r content), decoded, (proj2 (ok_iff r) fine).
  unfold read, lift. cbn [bind ret emit app negb]. rewrite member.
  cbn [bind ret emit app negb]. rewrite yes.
  destruct (lookup "data" props); reflexivity.
Qed.

End Bodies.

(** ** The base URL *)

Lemma strip_trailing_slashes_spec (s : string) :
  exists tail,
    s = strip_trailing_slashes s ++ tail
    /\ all_slashes tail = true
    /\ ends_with_slash (strip_trailing_slashes s) = false.
Proof.
  induction s as [|c rest (tail & split_rest & slashes & clean)].
  - exists "". repeat split.
  - cbn [strip_trailing_slashes].
    destruct (c =? "/")%char eqn:is_slash;
      destruct (strip_trailing_slashes rest) as [|c' kept] eqn:stripped;
      cbn [andb String.eqb].
    + exists (String c tail). cbn [append] in *. subst rest.
      cbn [all_slashes]. rewrite is_slash. repeat split. exact slashes.
    + exists tail. cbn [append] in *.
      split; [congruence | split; [exact slashes | exact clean]].
    + exists tail. cbn [append] in *.
      split; [congruence | split; [exact slashes | exact is_slash]].
    + exists tail. cbn [append] in *.
      split; [congruence | split; [exact slashes | exact clean]].
Qed.

Lemma strip_all_slashes (tail : string) :
  all_slashes tail = true -> strip_trailing_slashes tail = "".
Proof.
  induction tail as [|c rest IH]; [reflexivity|].
  cbn [all_slashes strip_trailing_slashes]. intros both.
  apply andb_true_iff in both. destruct both as [is_slash slashes].
  rewrite (IH slashes), is_slash. reflexivity.
Qed.

Lemma strip_append_slashes (s tail : string) :
  all_slashes tail = true ->
  strip_trailing_slashes (s ++ tail) = strip_trailing_slashes s.
Proof.
  intros slashes. induction s as [|c rest IH].
  - cbn [append]. apply strip_all_slashes, slashes.
  - cbn [append strip_trailing_slashes]. rewrite IH. reflexivity.
Qed.

(** X10.  The base URL a client works with is the configured one without
    the slashes at its end: the configured URL is the client's followed by
    slashes only, and the client's does not end in a slash. *)
Theorem base_url_loses_trailing_slashes (config : HttpClientConfig) :
  exists tail,
    config_baseUrl config = baseUrl (new_HttpClient config) ++ tail
    /\ all_slashes tail = true
    /\ ends_with_slash (baseUrl (new_HttpClient config)) = false.
Proof.
  apply (strip_trailing_slashes_spec (config_baseUrl config)).
Qed.

(** X11.  Slashes at the end of [options.baseUrl] do not matter: the client
    made from a base URL followed by any number of slashes is the client
    made from the base URL alone, so both build the same URLs and send the
    same requests. *)
Theorem trailing_slashes_do_not_matter (options : AgentGramOptions)
    (base tail : string) :
  options_baseUrl options = Some (base ++ tail) ->
  all_slashes tail = true ->
  new_AgentGram options
  = new_AgentGram (mkAgentGramOptions (options_apiKey options) (Some base)
                     (options_timeout options)).
Proof.
  intros given slashes. unfold new_AgentGram, new_HttpClient.
  rewrite given. cbn [nullish config_baseUrl config_apiKey config_timeout
                      options_baseUrl options_apiKey options_timeout].
  rewrite (strip_append_slashes base tail slashes). reflexivity.
Qed.

(** ** The query that [buildUrl] writes *)

Lemma set_tuple_fresh (k v : string) (l : list (string * string)) :
  existsb (named k) l = false -> set_tuple k v l = (l ++ [(k, v)])%list.
Proof.
  induction l as [|[k' v'] l IH]; [reflexivity|].
  cbn [existsb set_tuple app]. unfold named at 1. cbn [fst].
  destruct (k' =? k)%string; [discriminate|].
  cbn [orb]. intros fresh. rewrite (IH fresh). reflexivity.
Qed.

Lemma has_set_other (u : URL) (k k' v : string) :
  k <> k' ->
  searchParams_has (searchParams_set u k' v) k = searchParams_has u k.
Proof.
  intros distinct. rewrite !has_getAll, getAll_set_other by exact distinct.
  reflexivity.
Qed.

Lemma set_params_appends (entries : Params) :
  NoDup (map fst entries) ->
  forall u,
    (forall key, In key (map fst entries) -> searchParams_has u key = false) ->
    searchParams (set_params u entries)
    = (searchParams u ++ present entries)%list.
Proof.
  induction entries as [|[k [value|]] entries IH]; intros unique u fresh;
    cbn [set_params present].
  - rewrite app_nil_r. reflexivity.
  - cbn [map fst] in unique. apply NoDup_cons_iff in unique.
    destruct unique as [new unique].
    rewrite (IH unique).
    + unfold searchParams_set. cbn [searchParams].
      rewrite set_tuple_fresh by (apply fresh; left; reflexivity).
      rewrite <- app_assoc. reflexivity.
    + intros key member. rewrite has_set_other.
      * apply fresh. right. exact member.
      * intros ->. apply new, member.
  - cbn [map fst] in unique. apply NoDup_cons_iff in unique.
    apply IH; [apply unique|]. intros key member. apply fresh. right.
    exact member.
Qed.

Lemma present_member (entries : Params) :
  present entries <> [] -> exists k value, In (k, Some value) entries.
Proof.
  induction entries as [|[k [value|]] entries IH]; cbn [present].
  - intros []. reflexivity.
  - intros _. exists k, value. left. reflexivity.
  - intros some. destruct (IH some) as (k' & value & member).
    exists k', value. right. exact member.
Qed.

(** X12.  A parameter object whose members all hold [undefined], the empty
    object among them, gives the URL that no parameter object gives: no
    question mark is added, and an unparsable URL fails the same way. *)
Theorem undefined_params_change_nothing (rt : Runtime) (this : HttpClient)
    (path : string) (entries : Params) :
  (forall key value, ~ In (key, Some value) entries) ->
  buildUrl rt this path (Some entries) = buildUrl rt this path None.
Proof.
  intros unset. unfold buildUrl, buildUrl_object.
  destruct (URL_parse rt (baseUrl this ++ path)) as [u0|]; [|reflexivity].
  rewrite (set_params_unset entries u0 unset). reflexivity.
Qed.

(** X13.  When base URL and path bring none of the keys of the parameter
    object in a query of their own, the parameters that hold a value are
    appended to the query list in the order of the object, each as
    [String(value)], and the URL is the base, a question mark, the
    serialization of that list and the fragment. *)
Theorem params_appended_in_order (rt : Runtime) (this : HttpClient)
    (path : string) (entries : Params) (u0 : URL) :
  URL_parse rt (baseUrl this ++ path) = Some u0 ->
  NoDup (map fst entries) ->
  (forall key, In key (map fst entries) -> searchParams_has u0 key = false) ->
  present entries <> [] ->
  exists u,
    buildUrl_object rt this path (Some entries) = inl u
    /\ searchParams u = (searchParams u0 ++ present entries)%list
    /\ buildUrl rt this path (Some entries)
       = inl (url_base u0 ++ "?"
              ++ urlencoded_serialize (searchParams u0 ++ present entries)
              ++ match url_fragment u0 with
                 | None => ""
                 | Some f => "#" ++ f
                 end).
Proof.
  intros parsed unique fresh some. exists (set_params u0 entries).
  unfold buildUrl, buildUrl_object. rewrite parsed.
  split; [reflexivity|].
  pose proof (set_params_appends entries unique u0 fresh) as appended.
  split; [exact appended|]. f_equal. unfold URL_toString.
  rewrite (set_params_in_step entries u0)
    by (right; apply present_member, some).
  destruct (set_params_frame entries u0) as [-> ->].
  rewrite appended, !append_assoc. reflexivity.
Qed.

(** ** Delimiters in the query *)

Lemma count_append (c : ascii) (a b : string) :
  count c (a ++ b) = (count c a + count c b)%nat.
Proof.
  induction a as [|x a IH]; [reflexivity|].
  cbn [append count]. rewrite IH. apply Nat.add_assoc.
Qed.

Lemma urlencode_delimiters (s : string) :
  count "&" (urlencode s) = O /\ count "=" (urlencode s) = O
  /\ count "#" (urlencode s) = O /\ count "?" (urlencode s) = O.
Proof.
  induction s as [|x s (amp & eq & hash & quest)]; [repeat split|].
  cbn [urlencode]. rewrite !count_append, amp, eq, hash, quest.
  destruct x as [[] [] [] [] [] [] [] []]; repeat split; reflexivity.
Qed.

Lemma serialized_delimiters (l : list (string * string)) :
  count "=" (urlencoded_serialize l) = length l
  /\ count "&" (urlencoded_serialize l) = pred (length l)
  /\ count "#" (urlencoded_serialize l) = O
  /\ count "?" (urlencoded_serialize l) = O.
Proof.
  induction l as [|[k v] l (eq & amp & hash & quest)]; [repeat split|].
  destruct (urlencode_delimiters k) as (k_amp & k_eq & k_hash & k_quest).
  destruct (urlencode_delimiters v) as (v_amp & v_eq & v_hash & v_quest).
  cbn [urlencoded_serialize length pred].
  destruct l as [|p l].
  - rewrite !count_append, k_amp, k_eq, k_hash, k_quest,
      v_amp, v_eq, v_hash, v_quest.
    repeat split.
  - rewrite !count_append, k_amp, k_eq, k_hash, k_quest,
      v_amp, v_eq, v_hash, v_quest, eq, amp, hash, quest.
    cbn [length pred count]. repeat split; cbn; lia.
Qed.

(** X14.  Once a parameter holds a value, the query of the built URL has
    one [=] for each tuple of the query list and one [&] between two
    tuples, and neither [#] nor [?]: whatever characters keys and values
    are made of, they cannot add a parameter or start a fragment. *)
Theorem query_delimiters_count (rt : Runtime)
    (this : HttpClient) (path : string) (entries : Params) (u0 : URL) :
  URL_parse rt (baseUrl this ++ path) = Some u0 ->
  (exists key value, In (key, Some value) entries) ->
  exists u q,
    buildUrl_object rt this path (Some entries) = inl u
    /\ url_query u = Some q
    /\ count "=" q = length (searchParams u)
    /\ count "&" q = pred (length (searchParams u))
    /\ count "#" q = O
    /\ count "?" q = O.
Proof.
  intros parsed some.
  exists (set_params u0 entries),
    (urlencoded_serialize (searchParams (set_params u0 entries))).
  unfold buildUrl_object. rewrite parsed. split; [reflexivity|].
  split; [apply set_params_in_step; right; exact some|].
  apply serialized_delimiters.
Qed.

(** ** The resources *)

Lemma append_empty (s : string) : s ++ "" = s.
Proof. induction s as [|c s IH]; cbn; [|rewrite IH]; reflexivity. Qed.

Lemma only_url (rt : Runtime) (http : HttpClient) (path key : string)
    (x : option param) (u0 : URL) :
  URL_parse rt (baseUrl http ++ path) = Some u0 ->
  plain u0 ->
  buildUrl rt http path (only key x)
  = inl (url_base u0
         ++ match x with
            | Some v => "?" ++ urlencode key ++ "=" ++ urlencode (String_of v)
            | None => ""
            end).
Proof.
  intros parsed (no_query & no_fragment & no_params).
  unfold buildUrl, buildUrl_object. rewrite parsed.
  destruct x as [v|]; cbn [only set_params]; unfold URL_toString.
  - unfold searchParams_set. rewrite no_params, no_fragment.
    cbn [set_tuple url_base url_query url_fragment].
    rewrite serialized_not_empty. cbn [urlencoded_serialize].
    rewrite !append_assoc. cbn [append]. rewrite append_empty. reflexivity.
  - rewrite no_query, no_fragment. reflexivity.
Qed.

(** X15.  The listings with one optional argument send it whenever it is
    defined, [0] and [false] included, and send no query without it:
    against a base URL without query or fragment, [stories.list] and
    [hashtags.trending] call the transport at [...?limit=] followed by the
    urlencoded [String(limit)], which is [String(limit)] itself for every
    number below 1e21, and [notifications.list] at [...?unread=true] or
    [...?unread=false]; with the argument left out each calls the bare
    URL. *)
Theorem optional_argument_reaches_url (rt : Runtime) (http : HttpClient) :
  (forall u0 limit,
     URL_parse rt (baseUrl http ++ "/stories") = Some u0 ->
     plain u0 ->
     exists tail,
       events (StoriesResource.list rt http limit)
       = ([SetTimeout (timeout http);
           transport_call rt http "GET" None
             (url_base u0
              ++ match limit with
                 | Some n => "?limit=" ++ urlencode (ToString_number n)
                 | None => ""
                 end);
           ClearTimeout] ++ tail)%list)
  /\ (forall u0 limit,
        URL_parse rt (baseUrl http ++ "/hashtags/trending") = Some u0 ->
        plain u0 ->
        exists tail,
          events (HashtagsResource.trending rt http limit)
          = ([SetTimeout (timeout http);
              transport_call rt http "GET" None
                (url_base u0
                 ++ match limit with
                    | Some n => "?limit=" ++ urlencode (ToString_number n)
                    | None => ""
                    end);
              ClearTimeout] ++ tail)%list)
  /\ (forall u0 unread,
        URL_parse rt (baseUrl http ++ "/notifications") = Some u0 ->
        plain u0 ->
        exists tail,
          events (NotificationsResource.list rt http unread)
          = ([SetTimeout (timeout http);
              transport_call rt http "GET" None
                (url_base u0
                 ++ match unread with
                    | Some b => "?unread=" ++ Boolean_toString b
                    | None => ""
                    end);
              ClearTimeout] ++ tail)%list)
  /\ (forall n,
        exponent_plus n = false ->
        urlencode (ToString_number n) = ToString_number n).
Proof.
  split; [|split; [|split]]; [intros u0 x parsed bare ..|].
  - pose proof (only_url rt http "/stories" "limit"
                  (option_map PNumber x) u0 parsed bare) as built.
    destruct (request_call rt http "GET" _ None _ _ built) as (tail & seen & _).
    exists tail. unfold StoriesResource.list, get. rewrite seen.
    destruct x as [n|]; reflexivity.
  - pose proof (only_url rt http "/hashtags/trending" "limit"
                  (option_map PNumber x) u0 parsed bare) as built.
    destruct (request_call rt http "GET" _ None _ _ built) as (tail & seen & _).
    exists tail. unfold HashtagsResource.trending, get. rewrite seen.
    destruct x as [n|]; reflexivity.
  - pose proof (only_url rt http "/notifications" "unread"
                  (option_map PBoolean x) u0 parsed bare) as built.
    destruct (request_call rt http "GET" _ None _ _ built) as (tail & seen & _).
    exists tail. unfold NotificationsResource.list, get. rewrite seen.
    destruct x as [[|]|]; reflexivity.
  - intros n small. apply urlencode_safe, number_safe, small.
Qed.

(** X16.  The posts that build their body from an optional argument always
    send an object: [repost] the empty object or one with the comment,
    [comment] one with the content that has a [parentId] exactly when one
    was given, and [markRead] the empty object or one with the list of
    ids. *)
Theorem optional_member_of_body (rt : Runtime) (http : HttpClient) :
  (forall postId comment url,
     buildUrl rt http ("/posts/" ++ postId ++ "/repost") None = inl url ->
     exists props tail,
       events (PostsResource.repost rt http postId comment)
       = ([SetTimeout (timeout http);
           transport_call rt http "POST" (Some (JObj props)) url;
           ClearTimeout] ++ tail)%list
       /\ lookup "comment" props = option_map JStr comment
       /\ (comment = None -> props = []))
  /\ (forall postId content parentId url,
        buildUrl rt http ("/posts/" ++ postId ++ "/comments") None
        = inl url ->
        exists props tail,
          events (PostsResource.comment rt http postId content parentId)
          = ([SetTimeout (timeout http);
              transport_call rt http "POST" (Some (JObj props)) url;
              ClearTimeout] ++ tail)%list
          /\ lookup "content" props = Some (JStr content)
          /\ lookup "parentId" props = option_map JStr parentId)
  /\ (forall ids url,
        buildUrl rt http "/notifications/read" None = inl url ->
        exists props tail,
          events (NotificationsResource.markRead rt http ids)
          = ([SetTimeout (timeout http);
              transport_call rt http "POST" (Some (JObj props)) url;
              ClearTimeout] ++ tail)%list
          /\ lookup "ids" props
             = option_map (fun l => JArr (map JStr l)) ids
          /\ (ids = None -> props = [])).
Proof.
  split; [|split].
  - intros postId comment url built.
    destruct (request_call rt http "POST" _
                (Some (with_optional [] "comment" (option_map JStr comment)))
                _ _ built) as (tail & seen & _).
    eexists. exists tail. split; [exact seen|].
    destruct comment; cbn; split; congruence.
  - intros postId content parentId url built.
    destruct (request_call rt http "POST" _
                (Some (with_optional [("content", JStr content)] "parentId"
                         (option_map JStr parentId)))
                _ _ built) as (tail & seen & _).
    eexists. exists tail. split; [exact seen|].
    destruct parentId; cbn; split; reflexivity.
  - intros ids url built.
    destruct (request_call rt http "POST" _
                (Some (with_optional [] "ids"
                         (option_map (fun l => JArr (map JStr l)) ids)))
                _ _ built) as (tail & seen & _).
    eexists. exists tail. split.
    + unfold NotificationsResource.markRead, discard, post.
      rewrite events_bind, seen.
      destruct (outcome (request rt http "POST" "/notifications/read"
                           (Some (with_optional [] "ids"
                                    (option_map
                                       (fun l => JArr (map JStr l)) ids)))
                           None));
        cbn [ret events fst]; rewrite app_nil_r; reflexivity.
    + destruct ids; cbn; split; congruence.
Qed.

(** ** The tag in the path of [hashtags.posts] *)







(** ** Runs of the further properties against the mock host *)

Lemma invalid_url_stops_request_witness :
  get unparsing client "/health" None = ([], Throw (TypeError InvalidURL)).
Proof.
  apply (invalid_url_stops_request unparsing client "GET" "/health" None None
           eq_refl).
Defined.

Lemma returns_only_on_success_witness :
  exists url r,
    buildUrl (answering 201 envelope_created) client "/posts" None = inl url
    /\ fetch (answering 201 envelope_created) url
         (request_init (answering 201 envelope_created) client "POST" None)
       = Fulfilled r
    /\ 200 <= status r <= 299
    /\ (status r = 204 /\ VJson (JObj [("id", JStr "abc")]) = VUndefined
        \/ status r <> 204
           /\ exists j success,
                json r = Some j
                /\ read (VJson j) "success" = inl success
                /\ truthy success = true
                /\ read (VJson j) "data"
                   = inl (VJson (JObj [("id", JStr "abc")]))).
Proof.
  apply (returns_only_on_success (answering 201 envelope_created) client
           "POST" "/posts" None None (VJson (JObj [("id", JStr "abc")]))
           eq_refl).
Defined.


Lemma unlisted_status_is_generic_witness :
  outcome (get (answering 403 envelope_not_found) client "/agents/x" None)
  = Throw (SdkError (mkAgentGramError AgentGramErrorClass "AgentGramError"
                       "no such agent" (Some 403) (VStr "NOT_FOUND"))).
Proof.
  refine (proj1 (unlisted_status_is_generic (answering 403 envelope_not_found)
                   client "GET" "/agents/x" None None
                   "https://agentgram.co/api/v1/agents/x"
                   (mkResponse 403 (Some envelope_not_found))
                   eq_refl eq_refl envelope_not_found _ _ eq_refl)
                "NOT_FOUND" "no such agent" eq_refl).
  - unfold unlisted. cbn. lia.
  - cbn. discriminate.
Defined.

Lemma primitive_body_throws_type_error_witness :
  outcome (get (answering 200 JNull) client "/health" None)
  = Throw (TypeError (ReadOfNullish "success")).
Proof.
  apply (primitive_body_throws_type_error (answering 200 JNull) client
           "GET" "/health" None None "https://agentgram.co/api/v1/health"
           (mkResponse 200 (Some JNull)) eq_refl eq_refl JNull).
  - cbn. discriminate.
  - reflexivity.
  - reflexivity.
Defined.

Lemma missing_discriminant_is_failure_witness :
  outcome (get (answering 200 (JObj [])) client "/health" None)
  = Throw (throwMappedError 200 (VStr ("HTTP " ++ Number_toString 200))
             VUndefined)
  /\ (200 <= 200 <= 299 ->
      outcome (get (answering 200 (JObj [])) client "/health" None)
      = Throw (SdkError (mkAgentGramError AgentGramErrorClass
                           "AgentGramError" ("HTTP " ++ Number_toString 200)
                           (Some 200) VUndefined))).
Proof.
  apply (missing_discriminant_is_failure (answering 200 (JObj [])) client
           "GET" "/health" None None "https://agentgram.co/api/v1/health"
           (mkResponse 200 (Some (JObj []))) eq_refl eq_refl (JObj [])).
  - cbn. discriminate.
  - reflexivity.
  - right. exists []. repeat split.
Defined.

Lemma missing_message_takes_default_witness :
  exists e,
    outcome (get (answering 500 error_without_message) client "/health" None)
    = Throw (SdkError e)
    /\ message e = "Internal server error".
Proof.
  apply (missing_message_takes_default
           (answering 500 error_without_message) client
           "GET" "/health" None None "https://agentgram.co/api/v1/health"
           (mkResponse 500 (Some error_without_message)) eq_refl eq_refl
           [("error", JStr "boom")] (JStr "boom")).
  - cbn. discriminate.
  - reflexivity.
  - exact I.
  - reflexivity.
  - reflexivity.
Defined.

Lemma truthy_success_returns_data_witness :
  outcome (post (answering 201 (JObj [("success", JNum (integer 1))])) client
             "/stories/s1/view" None)
  = Return VUndefined.
Proof.
  apply (truthy_success_returns_data
           (answering 201 (JObj [("success", JNum (integer 1))])) client
           "POST" "/stories/s1/view" None None
           "https://agentgram.co/api/v1/stories/s1/view"
           (mkResponse 201 (Some (JObj [("success", JNum (integer 1))])))
           eq_refl eq_refl [("success", JNum (integer 1))] (JNum (integer 1))).
  - cbn. lia.
  - cbn. discriminate.
  - reflexivity.
  - reflexivity.
  - reflexivity.
Defined.

Lemma trailing_slashes_do_not_matter_witness :
  new_AgentGram (mkAgentGramOptions "key" (Some "https://h/api//") None)
  = new_AgentGram (mkAgentGramOptions "key" (Some "https://h/api") None).
Proof.
  apply (trailing_slashes_do_not_matter
           (mkAgentGramOptions "key" (Some "https://h/api//") None)
           "https://h/api" "//" eq_refl eq_refl).
Defined.

Lemma undefined_params_change_nothing_witness :
  buildUrl aborting client "/posts" (Some [("page", None); ("limit", None)])
  = buildUrl aborting client "/posts" None.
Proof.
  apply (undefined_params_change_nothing aborting client "/posts"
           [("page", None); ("limit", None)]).
  intros key value [H | [H | []]]; discriminate H.
Defined.

Lemma params_appended_in_order_witness :
  exists u,
    buildUrl_object aborting client "/posts" (Some list_query) = inl u
    /\ searchParams u
       = [("limit", "0"); ("unread", "false"); ("sort", "hot")]
    /\ buildUrl aborting client "/posts" (Some list_query)
       = inl "https://agentgram.co/api/v1/posts?limit=0&unread=false&sort=hot".
Proof.
  apply (params_appended_in_order aborting client "/posts" list_query
           (mkURL "https://agentgram.co/api/v1/posts" None None [])
           eq_refl).
  - repeat constructor; cbn; intuition discriminate.
  - reflexivity.
  - cbn. discriminate.
Defined.

Lemma query_delimiters_count_witness :
  exists u q,
    buildUrl_object aborting client "/posts" (Some hostile_query) = inl u
    /\ url_query u = Some q
    /\ count "=" q = length (searchParams u)
    /\ count "&" q = pred (length (searchParams u))
    /\ count "#" q = O
    /\ count "?" q = O.
Proof.
  apply (query_delimiters_count aborting client "/posts" hostile_query
           (mkURL "https://agentgram.co/api/v1/posts" None None [])
           eq_refl).
  exists "limit", (PNumber (integer 0)). right. right. left. reflexivity.
Defined.

Lemma optional_argument_reaches_url_witness :
  exists tail,
    events (StoriesResource.list aborting client (Some (integer 0)))
    = ([SetTimeout (integer 30000);
        transport_call aborting client "GET" None
          "https://agentgram.co/api/v1/stories?limit=0";
        ClearTimeout] ++ tail)%list.
Proof.
  apply (proj1 (optional_argument_reaches_url aborting client)
           (mkURL "https://agentgram.co/api/v1/stories" None None [])
           (Some (integer 0)) eq_refl).
  repeat split.
Defined.

Lemma optional_member_of_body_witness :
  exists props tail,
    events (PostsResource.repost aborting client "p1" None)
    = ([SetTimeout (integer 30000);
        transport_call aborting client "POST" (Some (JObj props))
          "https://agentgram.co/api/v1/posts/p1/repost";
        ClearTimeout] ++ tail)%list
    /\ lookup "comment" props = None
    /\ ((None : option string) = None -> props = []).
Proof.
  apply (proj1 (optional_member_of_body aborting client) "p1" None
           "https://agentgram.co/api/v1/posts/p1/repost" eq_refl).
Defined.


Example run_hostile_query :
  buildUrl aborting client "/posts" (Some hostile_query)
  = inl "https://agentgram.co/api/v1/posts?q=a%26b%3Dc%23d%3Fe&limit=0".
Proof. reflexivity. Qed.

Example run_tag_path :
  events (HashtagsResource.posts aborting client "ai/news?" None)
  = [SetTimeout (integer 30000);
     transport_call aborting client "GET" None
       "https://agentgram.co/api/v1/hashtags/ai%2Fnews%3F/posts";
     ClearTimeout].
Proof. reflexivity. Qed.



Example run_timeout_1e21 :
  outcome (get aborting
             (new_HttpClient
                (mkHttpClientConfig "https://agentgram.co/api/v1" "key"
                   (integer 1000000000000000000000)))
             "/health" None)
  = Throw (SdkError (mkAgentGramError AgentGramErrorClass "AgentGramError"
                       "Request timed out after 1e+21ms" None
                       (VStr "TIMEOUT_ERROR"))).
Proof. reflexivity. Qed.

Example run_falsy_body :
  events (post (answering 200 envelope_post) client "/posts" (Some JNull))
  = [SetTimeout (integer 30000);
     transport_call (answering 200 envelope_post) client "POST" None
       "https://agentgram.co/api/v1/posts";
     ClearTimeout; ReadJson].
Proof. reflexivity. Qed.

Example run_limit_1e21 :
  buildUrl aborting client "/posts"
    (Some [("limit", Some (PNumber (integer 1000000000000000000000)));
           ("ratio", Some (PNumber (Finite false
                                      (Decimal.D1 (Decimal.D5 Decimal.Nil))
                                      0)))])
  = inl "https://agentgram.co/api/v1/posts?limit=1e%2B21&ratio=0.15".
Proof. reflexivity. Qed.
